(** * online-store: order lifecycle and stock consistency

    A shallow embedding of the order and product services of the
    online-store backend (internal/services/orders.go,
    internal/services/products.go), of the MQTT handlers that drive them
    (internal/mqtt/handlers.go) and of the HTTP order handlers
    (internal/handlers/orders.go), together with the properties of the
    order lifecycle that can be stated about them.  The product handlers
    (internal/handlers/products.go), the set-up of the database
    (internal/database/connection.go) and the configuration
    (internal/config/config.go) follow, with what they guarantee.

    The services talk to a MariaDB database through database/sql and to an
    MQTT broker through a publishing client.  Both are modelled as explicit
    state: the tables of internal/database/connection.go as lists of rows,
    the broker as the list of messages handed to [Publish].

    What the model takes from the database, and nothing more:
    - INT columns hold 32-bit signed integers and the server runs in strict
      mode (the default of the mariadb:10.6 image of docker-compose.yml):
      storing a value outside the range fails the statement;
    - [products.name] is a VARCHAR(255) and [products.description] a TEXT
      of UTF-8 text: in strict mode a name of more than 255 characters or
      a description of more than 65535 bytes fails the statement that
      stores it.  The server makes one exception, which the model does
      not: when all that is beyond the limit is white space it cuts the
      text and stores it.  What is stated below about a text that is too
      long is therefore stated of a text with no white space in it;
    - [orders.status] is an ENUM of four labels, a string outside it fails
      the statement that assigns it to a row (labels are compared as
      written: the collation of the server, under which another spelling
      of a label, such as upper case, also names it, is not modelled);
    - [orders.user_id] and [orders.product_id] are foreign keys;
    - ids come from AUTO_INCREMENT counters, which a rollback does not
      rewind;
    - [RowsAffected] of an UPDATE counts the rows the statement changed,
      unless the connection was opened with clientFoundRows=true, in which
      case it counts the rows the WHERE clause matched.  The DSN of
      config.Load and of docker-compose.yml does not set that parameter;
    - a SELECT without FOR UPDATE, in a transaction begun with the default
      options, takes no lock: between the statements of one transaction
      another may run its own.
    A transaction that is begun and never committed nor rolled back keeps
    its connection; the model counts these transactions.  Connection
    failures, what a call does once the pool is used up and the failure of
    a publish (which every caller only prints) are outside the model.
    Time is a parameter [now] of every operation: the one reading stands
    for the server's CURRENT_TIMESTAMP of a row the operation inserts and
    for the later time.Now() of the response and of the events it builds.
    The code reads these clocks one after the other: where a stored time
    stands next to a reported one below, their being equal is this
    simplification and no property of the code. *)

From Stdlib Require Import ZArith List Ascii String Bool Lia.
From Stdlib Require Import Permutation Sorted.
Import ListNotations.
Open Scope string_scope.
Open Scope list_scope.
Open Scope Z_scope.

(** ** Machine integers *)

(** Go's [int] on the 64-bit targets the Dockerfile builds for: arithmetic
    wraps around silently. *)
Definition wrap64 (z : Z) : Z := (z + 2 ^ 63) mod 2 ^ 64 - 2 ^ 63.

Definition int_mul (a b : Z) : Z := wrap64 (a * b).
Definition int_sub (a b : Z) : Z := wrap64 (a - b).

(** The range of an SQL INT column. *)
Definition in_int32 (z : Z) : bool :=
  (-2147483648 <=? z) && (z <=? 2147483647).

(** ** internal/models *)

(** models.Product; also the shape of a row of the products table. *)
Record Product := mkProduct {
  Product_ID : Z;
  Product_Name : string;
  Product_Description : string;
  Product_PriceCents : Z;
  Product_StockQuantity : Z;
  Product_CreatedAt : Z
}.

(** models.ProductRequest *)
Record ProductRequest := mkProductRequest {
  ProductRequest_Name : string;
  ProductRequest_Description : string;
  ProductRequest_PriceCents : Z;
  ProductRequest_StockQuantity : Z
}.

(** models.OrderRequest *)
Record OrderRequest := mkOrderRequest {
  OrderRequest_ProductID : Z;
  OrderRequest_Quantity : Z
}.

(** models.OrderResponse *)
Record OrderResponse := mkOrderResponse {
  OrderResponse_ID : Z;
  OrderResponse_ProductID : Z;
  OrderResponse_ProductName : string;
  OrderResponse_Quantity : Z;
  OrderResponse_TotalCents : Z;
  OrderResponse_Status : string;
  OrderResponse_CreatedAt : Z
}.

(** models.OrderCreatedEvent *)
Record OrderCreatedEvent := mkOrderCreatedEvent {
  OrderCreatedEvent_OrderID : Z;
  OrderCreatedEvent_UserID : Z;
  OrderCreatedEvent_ProductID : Z;
  OrderCreatedEvent_Quantity : Z;
  OrderCreatedEvent_TotalCents : Z;
  OrderCreatedEvent_Timestamp : Z
}.

(** models.LowStockAlert *)
Record LowStockAlert := mkLowStockAlert {
  LowStockAlert_ProductID : Z;
  LowStockAlert_ProductName : string;
  LowStockAlert_CurrentStock : Z;
  LowStockAlert_ReorderLevel : Z;
  LowStockAlert_Timestamp : Z
}.

(** The anonymous struct published on order/status_changed. *)
Record StatusChangedEvent := mkStatusChangedEvent {
  StatusChangedEvent_OrderID : Z;
  StatusChangedEvent_Status : string;
  StatusChangedEvent_Timestamp : Z
}.

(** The anonymous struct published on product/updated. *)
Record ProductUpdatedEvent := mkProductUpdatedEvent {
  ProductUpdatedEvent_ProductID : Z;
  ProductUpdatedEvent_Name : string;
  ProductUpdatedEvent_Timestamp : Z
}.

(** ** The database of internal/database/connection.go *)

(** status ENUM('pending', 'paid', 'shipped', 'delivered') *)
Inductive OrderStatus := pending | paid | shipped | delivered.

Definition status_label (s : OrderStatus) : string :=
  match s with
  | pending => "pending"
  | paid => "paid"
  | shipped => "shipped"
  | delivered => "delivered"
  end.

Definition status_of_label (s : string) : option OrderStatus :=
  if String.eqb s "pending" then Some pending
  else if String.eqb s "paid" then Some paid
  else if String.eqb s "shipped" then Some shipped
  else if String.eqb s "delivered" then Some delivered
  else None.

Definition OrderStatus_eqb (a b : OrderStatus) : bool :=
  match a, b with
  | pending, pending | paid, paid | shipped, shipped
  | delivered, delivered => true
  | _, _ => false
  end.

(** The position of a status in the chain pending, paid, shipped,
    delivered. *)
Definition status_rank (s : OrderStatus) : Z :=
  match s with
  | pending => 0
  | paid => 1
  | shipped => 2
  | delivered => 3
  end.

Record UserRow := mkUserRow {
  users_id : Z;
  users_email : string;
  users_password_hash : string;
  users_created_at : Z
}.

Record OrderRow := mkOrderRow {
  orders_id : Z;
  orders_user_id : Z;
  orders_product_id : Z;
  orders_quantity : Z;
  orders_total_cents : Z;
  orders_status : OrderStatus;
  orders_created_at : Z
}.

Record DB := mkDB {
  users : list UserRow;
  products : list Product;
  orders : list OrderRow;
  (** AUTO_INCREMENT counters of products and orders *)
  next_product_id : Z;
  next_order_id : Z;
  (** whether the connection reports matched rather than changed rows *)
  clientFoundRows : bool
}.

Inductive SqlError :=
| OutOfRange        (* a value does not fit its INT column *)
| ForeignKeyFails   (* the referenced row does not exist *)
| DataTruncated     (* a string that is no label of the ENUM *)
| DataTooLong.      (* a text longer than its column holds *)

(** The number of characters of a UTF-8 text: every byte but those that
    continue a character (10xxxxxx). *)
Fixpoint utf8_chars (s : string) : Z :=
  match s with
  | EmptyString => 0
  | String c rest =>
    let b := Z.of_nat (nat_of_ascii c) in
    (if (128 <=? b) && (b <? 192) then 0 else 1) + utf8_chars rest
  end.

(** What a VARCHAR(255) column holds: 255 characters. *)
Definition in_varchar255 (s : string) : bool := utf8_chars s <=? 255.

(** What a TEXT column holds: 65535 bytes. *)
Definition in_text (s : string) : bool :=
  Z.of_nat (String.length s) <=? 65535.


(** *** Statements *)

(** SELECT ... FROM products WHERE id = ?  (QueryRow: the first row) *)
Definition select_product (d : DB) (id : Z) : option Product :=
  find (fun p => Product_ID p =? id) (products d).

Definition user_exists (d : DB) (id : Z) : bool :=
  existsb (fun u => users_id u =? id) (users d).

Definition product_exists (d : DB) (id : Z) : bool :=
  existsb (fun p => Product_ID p =? id) (products d).

(** INSERT INTO orders (user_id, product_id, quantity, total_cents, status)
    VALUES (?, ?, ?, ?, ?): the new row takes the next id and the current
    time; the counter advances.  On success, LastInsertId. *)
Definition insert_order (userID productID quantity totalCents : Z)
    (status : string) (now : Z) (d : DB) : SqlError + (Z * DB) :=
  if negb (in_int32 userID && in_int32 productID && in_int32 quantity
           && in_int32 totalCents && in_int32 (next_order_id d))
  then inl OutOfRange
  else match status_of_label status with
  | None => inl DataTruncated
  | Some st =>
    if negb (user_exists d userID && product_exists d productID)
    then inl ForeignKeyFails
    else
      let id := next_order_id d in
      let row := mkOrderRow id userID productID quantity totalCents st now in
      inr (id, mkDB (users d) (products d) (orders d ++ [row])
                    (next_product_id d) (id + 1) (clientFoundRows d))
  end.

(** The count an UPDATE reports through RowsAffected. *)
Definition rows_affected {A : Type} (d : DB) (matched changed : A -> bool)
    (rows : list A) : Z :=
  Z.of_nat (List.length
    (filter (fun r => matched r && (clientFoundRows d || changed r)) rows)).

(** UPDATE products SET stock_quantity = ? WHERE id = ? *)
Definition update_stock (newStock id : Z) (d : DB) : SqlError + (Z * DB) :=
  let matched p := Product_ID p =? id in
  if existsb matched (products d) && negb (in_int32 newStock)
  then inl OutOfRange
  else
    let set p :=
      if matched p
      then mkProduct (Product_ID p) (Product_Name p) (Product_Description p)
                     (Product_PriceCents p) newStock (Product_CreatedAt p)
      else p in
    let changed p := negb (Product_StockQuantity p =? newStock) in
    inr (rows_affected d matched changed (products d),
         mkDB (users d) (map set (products d)) (orders d)
              (next_product_id d) (next_order_id d) (clientFoundRows d)).

(** UPDATE products SET name = ?, description = ?, price_cents = ?,
    stock_quantity = ? WHERE id = ? *)
Definition update_product (req : ProductRequest) (id : Z) (d : DB)
    : SqlError + (Z * DB) :=
  let matched p := Product_ID p =? id in
  if existsb matched (products d)
     && negb (in_varchar255 (ProductRequest_Name req)
              && in_text (ProductRequest_Description req))
  then inl DataTooLong
  else if existsb matched (products d)
     && negb (in_int32 (ProductRequest_PriceCents req)
              && in_int32 (ProductRequest_StockQuantity req))
  then inl OutOfRange
  else
    let set p :=
      if matched p
      then mkProduct (Product_ID p) (ProductRequest_Name req)
                     (ProductRequest_Description req)
                     (ProductRequest_PriceCents req)
                     (ProductRequest_StockQuantity req) (Product_CreatedAt p)
      else p in
    let changed p :=
      negb (String.eqb (Product_Name p) (ProductRequest_Name req)
            && String.eqb (Product_Description p)
                          (ProductRequest_Description req)
            && (Product_PriceCents p =? ProductRequest_PriceCents req)
            && (Product_StockQuantity p =? ProductRequest_StockQuantity req)) in
    inr (rows_affected d matched changed (products d),
         mkDB (users d) (map set (products d)) (orders d)
              (next_product_id d) (next_order_id d) (clientFoundRows d)).

(** UPDATE orders SET status = ? WHERE id = ? *)
Definition update_order_status (status : string) (id : Z) (d : DB)
    : SqlError + (Z * DB) :=
  let matched o := orders_id o =? id in
  match status_of_label status with
  | None =>
    if existsb matched (orders d) then inl DataTruncated
    else inr (0, d)
  | Some st =>
    let set o :=
      if matched o
      then mkOrderRow (orders_id o) (orders_user_id o) (orders_product_id o)
                      (orders_quantity o) (orders_total_cents o) st
                      (orders_created_at o)
      else o in
    let changed o := negb (OrderStatus_eqb (orders_status o) st) in
    inr (rows_affected d matched changed (orders d),
         mkDB (users d) (products d) (map set (orders d))
              (next_product_id d) (next_order_id d) (clientFoundRows d))
  end.

(** SELECT ... FROM orders o JOIN products p ON o.product_id = p.id *)
Definition orders_join_products (d : DB) : list (OrderRow * Product) :=
  flat_map
    (fun o => map (pair o)
       (filter (fun p => Product_ID p =? orders_product_id o) (products d)))
    (orders d).

(** tx.Rollback: the tables return to their state at Begin, the
    AUTO_INCREMENT counters keep what the transaction consumed. *)
Definition rollback (before during : DB) : DB :=
  mkDB (users before) (products before) (orders before)
       (next_product_id during) (next_order_id during)
       (clientFoundRows before).

(** ** internal/mqtt/client.go: the publishing side *)

Inductive Payload :=
| OrderCreatedPayload (e : OrderCreatedEvent)
| LowStockPayload (a : LowStockAlert)
| StatusChangedPayload (e : StatusChangedEvent)
| ProductUpdatedPayload (e : ProductUpdatedEvent).

Record Message := mkMessage {
  topic : string;
  payload : Payload
}.

(** The state the services act on: the database, in order the messages
    handed to the broker, and the number of transactions that were begun
    and neither committed nor rolled back.  Each of these keeps for itself
    one connection of the pool, which Connect limits to 25. *)
Record World := mkWorld {
  db : DB;
  published : list Message;
  open_transactions : Z
}.

(** db.SetMaxOpenConns(25) *)
Definition MaxOpenConns : Z := 25.

(** Client.Publish *)
Definition Publish (t : string) (p : Payload) (w : World) : World :=
  mkWorld (db w) (published w ++ [mkMessage t p]) (open_transactions w).

(** ** Errors of the services, one constructor per message *)

Inductive Error :=
| ErrProductNotFound                          (* "product not found" *)
| ErrInsufficientStock (available : Z)        (* "insufficient stock: only %d items available" *)
| ErrFailedToCreateOrder (cause : SqlError)   (* "failed to create order: %w" *)
| ErrFailedToUpdateStock (cause : SqlError)   (* "failed to update stock: %w" *)
| ErrFailedToUpdateProduct (cause : SqlError) (* "failed to update product: %w" *)
| ErrFailedToUpdateOrderStatus (cause : SqlError) (* "failed to update order status: %w" *)
| ErrOrderNotFound.                           (* "order not found" *)

(** ** Statements inside a transaction

    A computation that runs against the transaction's view of the database
    and stops at the first error return.  A stop records the error that is
    returned and whether the local variable [err] holds an error at that
    point: that variable is what the deferred function of CreateOrder
    tests. *)
Record Stop := mkStop {
  stop_error : Error;
  stop_err_set : bool
}.

Definition Tx (A : Type) : Type := DB -> (Stop + A) * DB.

Definition tx_ret {A : Type} (a : A) : Tx A := fun d => (inr a, d).

(** [return nil, fmt.Errorf(...)] under [if err != nil] *)
Definition tx_fail {A : Type} (e : Error) : Tx A :=
  fun d => (inl (mkStop e true), d).

(** [return nil, fmt.Errorf(...)] while [err] is nil *)
Definition tx_return {A : Type} (e : Error) : Tx A :=
  fun d => (inl (mkStop e false), d).

Definition tx_bind {A B : Type} (m : Tx A) (k : A -> Tx B) : Tx B :=
  fun d =>
    match m d with
    | (inl e, d') => (inl e, d')
    | (inr a, d') => k a d'
    end.

(** tx.Exec, its error wrapped by [wrap]; the value is what the caller reads
    from the sql.Result. *)
Definition tx_exec {A : Type} (wrap : SqlError -> Error)
    (stmt : DB -> SqlError + (A * DB)) : Tx A :=
  fun d =>
    match stmt d with
    | inl c => (inl (mkStop (wrap c) true), d)
    | inr (a, d') => (inr a, d')
    end.

Notation "x <- m ;; k" := (tx_bind m (fun x => k))
  (at level 61, m at next level, right associativity).

(** ** internal/services/orders.go *)

(** CreateOrder, statement by statement.  The SELECT reads four columns;
    the other two fields of the scanned product keep Go's zero values. *)
Definition CreateOrder_select (req : OrderRequest) : Tx Product :=
  fun d =>
    match select_product d (OrderRequest_ProductID req) with
    | None => tx_fail ErrProductNotFound d
    | Some p => (inr (mkProduct (Product_ID p) (Product_Name p) ""
                                (Product_PriceCents p)
                                (Product_StockQuantity p) 0), d)
    end.

(** From the stock check to the UPDATE of the stock, on the product the
    SELECT scanned. *)
Definition CreateOrder_reserve (userID : Z) (req : OrderRequest) (now : Z)
    (product : Product) : Tx (Product * Z * Z * Z) :=
  if Product_StockQuantity product <? OrderRequest_Quantity req
  then tx_return (ErrInsufficientStock (Product_StockQuantity product))
  else
    let totalCents :=
      int_mul (Product_PriceCents product) (OrderRequest_Quantity req) in
    orderID <- tx_exec ErrFailedToCreateOrder
      (insert_order userID (OrderRequest_ProductID req)
         (OrderRequest_Quantity req) totalCents "pending" now) ;;
    let newStock :=
      int_sub (Product_StockQuantity product) (OrderRequest_Quantity req) in
    _ <- tx_exec ErrFailedToUpdateStock
      (update_stock newStock (OrderRequest_ProductID req)) ;;
    tx_ret (product, totalCents, orderID, newStock).

(** The body of CreateOrder between Begin and Commit. *)
Definition CreateOrder_tx (userID : Z) (req : OrderRequest) (now : Z)
    : Tx (Product * Z * Z * Z) :=
  product <- CreateOrder_select req ;;
  CreateOrder_reserve userID req now product.

(** The end of CreateOrder.  After an error return the deferred function
    runs: it calls Rollback if [err] is not nil, and does nothing otherwise,
    in which case the transaction is left open, its writes uncommitted.
    After the last statement comes Commit, then the response and the
    events. *)
Definition CreateOrder_end (userID : Z) (req : OrderRequest) (now : Z)
    (w : World) (r : (Stop + Product * Z * Z * Z) * DB)
    : (Error + OrderResponse) * World :=
  match r with
  | (inl stop, d') =>
    (inl (stop_error stop),
     mkWorld (rollback (db w) d') (published w)
       (if stop_err_set stop then open_transactions w
        else open_transactions w + 1))
  | (inr (product, totalCents, orderID, newStock), d') =>
    let orderResponse :=
      mkOrderResponse orderID (OrderRequest_ProductID req)
        (Product_Name product) (OrderRequest_Quantity req) totalCents
        "pending" now in
    let event :=
      mkOrderCreatedEvent orderID userID (OrderRequest_ProductID req)
        (OrderRequest_Quantity req) totalCents now in
    let w1 := Publish "order/created" (OrderCreatedPayload event)
                (mkWorld d' (published w) (open_transactions w)) in
    let w2 :=
      if newStock <? 10
      then Publish "inventory/low_stock"
             (LowStockPayload
                (mkLowStockAlert (OrderRequest_ProductID req)
                   (Product_Name product) newStock 10 now)) w1
      else w1 in
    (inr orderResponse, w2)
  end.

(** OrderService.CreateOrder *)
Definition CreateOrder (userID : Z) (req : OrderRequest) (now : Z) (w : World)
    : (Error + OrderResponse) * World :=
  CreateOrder_end userID req now w (CreateOrder_tx userID req now (db w)).

(** OrderService.GetOrder *)
Definition GetOrder (orderID userID : Z) (w : World) : Error + OrderResponse :=
  match find (fun op => (orders_id (fst op) =? orderID)
                        && (orders_user_id (fst op) =? userID))
             (orders_join_products (db w)) with
  | None => inl ErrOrderNotFound
  | Some (o, p) =>
    inr (mkOrderResponse (orders_id o) (orders_product_id o) (Product_Name p)
           (orders_quantity o) (orders_total_cents o)
           (status_label (orders_status o)) (orders_created_at o))
  end.

(** OrderService.UpdateOrderStatus *)
Definition UpdateOrderStatus (orderID : Z) (status : string) (now : Z)
    (w : World) : (Error + unit) * World :=
  match update_order_status status orderID (db w) with
  | inl c => (inl (ErrFailedToUpdateOrderStatus c), w)
  | inr (rowsAffected, d') =>
    let w1 := mkWorld d' (published w) (open_transactions w) in
    if rowsAffected =? 0 then (inl ErrOrderNotFound, w1)
    else
      (inr tt,
       Publish "order/status_changed"
         (StatusChangedPayload (mkStatusChangedEvent orderID status now)) w1)
  end.

(** ** internal/services/products.go *)

(** ProductService.GetProduct *)
Definition GetProduct (id : Z) (w : World) : Error + Product :=
  match select_product (db w) id with
  | None => inl ErrProductNotFound
  | Some p => inr p
  end.

(** ProductService.UpdateProduct *)
Definition UpdateProduct (id : Z) (req : ProductRequest) (now : Z) (w : World)
    : (Error + Product) * World :=
  match update_product req id (db w) with
  | inl c => (inl (ErrFailedToUpdateProduct c), w)
  | inr (_, d') =>
    let w1 := mkWorld d' (published w) (open_transactions w) in
    match GetProduct id w1 with
    | inl e => (inl e, w1)
    | inr product =>
      (inr product,
       Publish "product/updated"
         (ProductUpdatedPayload
            (mkProductUpdatedEvent (Product_ID product) (Product_Name product)
               now)) w1)
    end
  end.

(** ProductService.UpdateStock *)
Definition UpdateStock (productID newStock now : Z) (w : World)
    : (Error + unit) * World :=
  match update_stock newStock productID (db w) with
  | inl c => (inl (ErrFailedToUpdateStock c), w)
  | inr (_, d') =>
    let w1 := mkWorld d' (published w) (open_transactions w) in
    if newStock <? 10 then
      match GetProduct productID w1 with
      | inl e => (inl e, w1)
      | inr product =>
        (inr tt,
         Publish "inventory/low_stock"
           (LowStockPayload
              (mkLowStockAlert productID (Product_Name product) newStock 10
                 now)) w1)
      end
    else (inr tt, w1)
  end.

(** ** internal/mqtt/handlers.go *)

(** The anonymous struct handleInventoryUpdate decodes into. *)
Record InventoryUpdate := mkInventoryUpdate {
  InventoryUpdate_ProductID : Z;
  InventoryUpdate_NewStock : Z
}.

(** The anonymous struct handlePaymentConfirmed decodes into. *)
Record PaymentConfirmation := mkPaymentConfirmation {
  PaymentConfirmation_OrderID : Z;
  PaymentConfirmation_Status : string
}.

(** What the handlers write with log.Printf, one constructor per format. *)
Inductive LogLine :=
| LogReceivedInventoryUpdate (raw : string)
| LogFailedToParseInventoryUpdate
| LogFailedToUpdateProductStock (e : Error)
| LogUpdatedStock (productID newStock : Z)
| LogReceivedPaymentConfirmation (raw : string)
| LogFailedToParsePaymentConfirmation
| LogFailedToUpdateOrderStatus (e : Error)
| LogUpdatedOrderStatusToPaid (orderID : Z).

Section MqttHandlers.

  (** json.Unmarshal into the two structs; [None] is a decoding error. *)
Variable unmarshal_inventory_update : string -> option InventoryUpdate.
Variable unmarshal_payment : string -> option PaymentConfirmation.

  (** Handlers.handleInventoryUpdate *)
Definition handleInventoryUpdate (msg : string) (now : Z) (w : World)
      : list LogLine * World :=
    let log := [LogReceivedInventoryUpdate msg] in
    match unmarshal_inventory_update msg with
    | None => (log ++ [LogFailedToParseInventoryUpdate], w)
    | Some update =>
      match UpdateStock (InventoryUpdate_ProductID update)
                        (InventoryUpdate_NewStock update) now w with
      | (inl e, w') => (log ++ [LogFailedToUpdateProductStock e], w')
      | (inr _, w') =>
        (log ++ [LogUpdatedStock (InventoryUpdate_ProductID update)
                                 (InventoryUpdate_NewStock update)], w')
      end
    end.

  (** Handlers.handlePaymentConfirmed *)
Definition handlePaymentConfirmed (msg : string) (now : Z) (w : World)
      : list LogLine * World :=
    let log := [LogReceivedPaymentConfirmation msg] in
    match unmarshal_payment msg with
    | None => (log ++ [LogFailedToParsePaymentConfirmation], w)
    | Some payment =>
      match UpdateOrderStatus (PaymentConfirmation_OrderID payment) "paid"
                              now w with
      | (inl e, w') => (log ++ [LogFailedToUpdateOrderStatus e], w')
      | (inr _, w') =>
        (log ++ [LogUpdatedOrderStatusToPaid
                   (PaymentConfirmation_OrderID payment)], w')
      end
    end.

End MqttHandlers.

(** ** internal/handlers/orders.go *)

Inductive ErrorText :=
| UserNotAuthenticated       (* "User not authenticated" *)
| BindingError               (* err.Error() of ShouldBindJSON *)
| InvalidOrderID             (* "Invalid order ID" *)
| ServiceError (e : Error).  (* err.Error() of the service *)

Inductive Body :=
| ErrorBody (e : ErrorText)          (* gin.H{"error": ...} *)
| OrderBody (o : OrderResponse).

Record Response := mkResponse {
  status_code : Z;
  body : Body
}.

(** The binding tags of models.OrderRequest: [required] refuses Go's zero
    value, [min=1] a number below 1. *)
Definition validate_OrderRequest (req : OrderRequest) : bool :=
  negb (OrderRequest_ProductID req =? 0)
  && negb (OrderRequest_Quantity req =? 0)
  && (1 <=? OrderRequest_Quantity req).

Section HttpHandlers.

  (** The JSON decoding of a request body into models.OrderRequest. *)
Variable decode_OrderRequest : string -> option OrderRequest.
  (** strconv.ParseInt(idStr, 10, 0) *)
Variable ParseInt : string -> option Z.

  (** c.ShouldBindJSON(&req): decode, then check the binding tags. *)
Definition ShouldBindJSON (raw : string) : option OrderRequest :=
    match decode_OrderRequest raw with
    | None => None
    | Some req => if validate_OrderRequest req then Some req else None
    end.

  (** getIDFromParam *)
Definition getIDFromParam (idStr : string) : option Z := ParseInt idStr.

  (** OrderHandler.CreateOrder; [user_id] is what the authentication
      middleware left in the context. *)
Definition OrderHandler_CreateOrder (user_id : option Z) (raw : string)
      (now : Z) (w : World) : Response * World :=
    match user_id with
    | None => (mkResponse 401 (ErrorBody UserNotAuthenticated), w)
    | Some userID =>
      match ShouldBindJSON raw with
      | None => (mkResponse 400 (ErrorBody BindingError), w)
      | Some req =>
        match CreateOrder userID req now w with
        | (inl e, w') => (mkResponse 400 (ErrorBody (ServiceError e)), w')
        | (inr order, w') => (mkResponse 201 (OrderBody order), w')
        end
      end
    end.

  (** OrderHandler.GetOrder *)
Definition OrderHandler_GetOrder (user_id : option Z) (idStr : string)
      (w : World) : Response :=
    match user_id with
    | None => mkResponse 401 (ErrorBody UserNotAuthenticated)
    | Some userID =>
      match getIDFromParam idStr with
      | None => mkResponse 400 (ErrorBody InvalidOrderID)
      | Some orderID =>
        match GetOrder orderID userID w with
        | inl e => mkResponse 404 (ErrorBody (ServiceError e))
        | inr order => mkResponse 200 (OrderBody order)
        end
      end
    end.

End HttpHandlers.

(** ** Sequences of stock operations *)

Inductive StockOp :=
| OpCreateOrder (userID : Z) (req : OrderRequest)
| OpUpdateStock (productID newStock : Z).

Definition run_op (now : Z) (op : StockOp) (w : World) : World :=
  match op with
  | OpCreateOrder userID req => snd (CreateOrder userID req now w)
  | OpUpdateStock productID newStock =>
    snd (UpdateStock productID newStock now w)
  end.

Definition run_ops (now : Z) (ops : list StockOp) (w : World) : World :=
  fold_left (fun w op => run_op now op w) ops w.

(** ** Calls in flight

    The server runs each request on its own goroutine and database/sql
    gives each transaction its own connection of the pool, so the
    statements of two CreateOrder calls reach the database in some
    interleaved order.  The SELECT of CreateOrder is a plain read: its text
    has no FOR UPDATE and Begin is called with the default options, so it
    holds no lock on the row and a second call may read the stock before
    the first has written it.  A call is followed through the two points at
    which it meets the shared tables: its SELECT, and its writes, which
    reach the tables together when it commits. *)
Inductive CallState :=
| BeforeSelect
| AfterSelect (product : Product)   (* the local variable [product] *)
| Returned (r : Error + OrderResponse).

Record Call := mkCall {
  Call_userID : Z;
  Call_req : OrderRequest;
  Call_now : Z;
  Call_state : CallState
}.

(** The next move of a call against the shared world. *)
Definition call_step (c : Call) (w : World) : Call * World :=
  let at_state st := mkCall (Call_userID c) (Call_req c) (Call_now c) st in
  match Call_state c with
  | BeforeSelect =>
    match CreateOrder_select (Call_req c) (db w) with
    | (inl stop, d') =>
      let r := CreateOrder_end (Call_userID c) (Call_req c) (Call_now c) w
                 (inl stop, d') in
      (at_state (Returned (fst r)), snd r)
    | (inr product, _) => (at_state (AfterSelect product), w)
    end
  | AfterSelect product =>
    let r := CreateOrder_end (Call_userID c) (Call_req c) (Call_now c) w
               (CreateOrder_reserve (Call_userID c) (Call_req c) (Call_now c)
                  product (db w)) in
    (at_state (Returned (fst r)), snd r)
  | Returned _ => (c, w)
  end.

Inductive Who := First | Second.

Definition schedule_step (who : Who) (s : Call * Call * World)
    : Call * Call * World :=
  let '(c1, c2, w) := s in
  match who with
  | First => let (c1', w') := call_step c1 w in (c1', c2, w')
  | Second => let (c2', w') := call_step c2 w in (c1, c2', w')
  end.

Definition run_schedule (schedule : list Who) (s : Call * Call * World)
    : Call * Call * World :=
  fold_left (fun s who => schedule_step who s) schedule s.

Definition succeeded (c : Call) : bool :=
  match Call_state c with
  | Returned (inr _) => true
  | _ => false
  end.

Definition refused_for_stock (c : Call) : bool :=
  match Call_state c with
  | Returned (inl (ErrInsufficientStock _)) => true
  | _ => false
  end.

(** ** The sample data of insertSampleData, with one registered user *)

Definition sample_db : DB :=
  mkDB [mkUserRow 1 "john@example.com" "$2a$10$hash" 0]
       [mkProduct 1 "Go Programming Book" "Learn Go programming from scratch"
                  2999 50 0;
        mkProduct 2 "MQTT Sensor Kit" "IoT sensor kit with MQTT support"
                  4999 25 0;
        mkProduct 3 "Docker T-Shirt"
                  "Comfortable cotton t-shirt with Docker logo" 1999 100 0;
        mkProduct 4 "Wireless Mouse"
                  "Ergonomic wireless mouse for developers" 3499 75 0]
       [] 5 1 false.

Definition sample_world : World := mkWorld sample_db [] 0.

(** ** Worlds, messages and predicates used in the statements *)

Definition order_created_message (userID : Z) (req : OrderRequest)
    (orderID totalCents now : Z) : Message :=
  mkMessage "order/created"
    (OrderCreatedPayload
       (mkOrderCreatedEvent orderID userID (OrderRequest_ProductID req)
          (OrderRequest_Quantity req) totalCents now)).

Definition low_stock_message (productID : Z) (name : string)
    (stock now : Z) : Message :=
  mkMessage "inventory/low_stock"
    (LowStockPayload (mkLowStockAlert productID name stock 10 now)).

(** A catalogue whose only product is sold out. *)
Definition sold_out_world : World :=
  mkWorld
    (mkDB [mkUserRow 1 "john@example.com" "$2a$10$hash" 0]
          [mkProduct 1 "Go Programming Book"
                     "Learn Go programming from scratch" 2999 0 0]
          [] 2 1 false)
    [] 0.

(** Scenario B: stock 11, quantity 2. *)
Definition eleven_left_world : World :=
  mkWorld
    (mkDB [mkUserRow 1 "john@example.com" "$2a$10$hash" 0]
          [mkProduct 1 "Go Programming Book"
                     "Learn Go programming from scratch" 2999 11 0]
          [] 2 1 false)
    [] 0.

(** A run of UpdateProduct calls, each with its id and request. *)
Definition update_products (now : Z) (reqs : list (Z * ProductRequest))
    (w : World) : World :=
  fold_left (fun w r => snd (UpdateProduct (fst r) (snd r) now w)) reqs w.

(** Every product holds a stock that is non-negative and fits its column. *)
Definition stock_nonneg (d : DB) : Prop :=
  Forall (fun p => 0 <= Product_StockQuantity p <= 2147483647) (products d).

Definition op_sets_nonneg_stock (op : StockOp) : Prop :=
  match op with
  | OpCreateOrder _ _ => True
  | OpUpdateStock _ newStock => 0 <= newStock
  end.

(** A decoder that knows one payload; it stands for the JSON decoding at
    the payload of an example. *)
Definition decode_only {A : Type} (raw : string) (v : A)
    : string -> option A :=
  fun s => if String.eqb s raw then Some v else None.

Definition order_present (orderID : Z) (d : DB) : bool :=
  existsb (fun o => orders_id o =? orderID) (orders d).

Definition order_of_user (orderID userID : Z) (d : DB) : bool :=
  existsb (fun o => (orders_id o =? orderID) && (orders_user_id o =? userID))
    (orders d).

(** Order 1 belongs to user 1, and user 2 asks for it. *)
Definition one_order_world : World :=
  mkWorld
    (mkDB [mkUserRow 1 "john@example.com" "$2a$10$hash" 0;
           mkUserRow 2 "jane@example.com" "$2a$10$hash" 0]
          [mkProduct 1 "Go Programming Book"
                     "Learn Go programming from scratch" 2999 48 0]
          [mkOrderRow 1 1 1 2 5998 pending 100] 2 2 false)
    [] 0.

(** The same shop before any order was placed. *)
Definition no_order_world : World :=
  mkWorld
    (mkDB [mkUserRow 1 "john@example.com" "$2a$10$hash" 0;
           mkUserRow 2 "jane@example.com" "$2a$10$hash" 0]
          [mkProduct 1 "Go Programming Book"
                     "Learn Go programming from scratch" 2999 50 0]
          [] 2 1 false)
    [] 0.

(** The row [o] after UPDATE orders SET status = st WHERE id = orderID. *)
Definition set_status (orderID : Z) (st : OrderStatus) (o : OrderRow)
    : OrderRow :=
  if orders_id o =? orderID
  then mkOrderRow (orders_id o) (orders_user_id o) (orders_product_id o)
         (orders_quantity o) (orders_total_cents o) st (orders_created_at o)
  else o.

Definition status_changed_message (orderID : Z) (status : string) (now : Z)
    : Message :=
  mkMessage "order/status_changed"
    (StatusChangedPayload (mkStatusChangedEvent orderID status now)).

(** The payload of the usage examples: the JSON object with order_id 1 and
    status paid, and the same with another status string. *)
Definition dquote : string := String "034"%char EmptyString.

Definition payment_payload (status : string) : string :=
  String.concat dquote
    ["{"; "order_id"; ": 1, "; "status"; ": "; status; "}"].

(** A decoder that knows these two payloads. *)
Definition unmarshal_payment_example (s : string)
    : option PaymentConfirmation :=
  if String.eqb s (payment_payload "paid")
  then Some (mkPaymentConfirmation 1 "paid")
  else if String.eqb s (payment_payload "pending")
  then Some (mkPaymentConfirmation 1 "pending")
  else None.

(** Two users and the last unit of a product. *)
Definition last_unit_world : World :=
  mkWorld
    (mkDB [mkUserRow 1 "john@example.com" "$2a$10$hash" 0;
           mkUserRow 2 "jane@example.com" "$2a$10$hash" 0]
          [mkProduct 1 "Go Programming Book"
                     "Learn Go programming from scratch" 2999 1 0]
          [] 2 1 false)
    [] 0.

(** Two calls, of users 1 and 2, each for one unit of product 1. *)
Definition two_calls_for_last_unit : Call * Call * World :=
  (mkCall 1 (mkOrderRequest 1 1) 100 BeforeSelect,
   mkCall 2 (mkOrderRequest 1 1) 101 BeforeSelect,
   last_unit_world).

(** ** The rest of the services

    ORDER BY created_at DESC: the rows by decreasing creation time.  Rows of
    equal time come in an order the server is free to choose; here they keep
    the order of the table. *)
Fixpoint insert_desc {A : Type} (key : A -> Z) (x : A) (l : list A) : list A :=
  match l with
  | [] => [x]
  | y :: l' => if key y <=? key x then x :: l else y :: insert_desc key x l'
  end.

Fixpoint order_by_desc {A : Type} (key : A -> Z) (l : list A) : list A :=
  match l with
  | [] => []
  | x :: l' => insert_desc key x (order_by_desc key l')
  end.

(** INSERT INTO products (name, description, price_cents, stock_quantity)
    VALUES (?, ?, ?, ?) *)
Definition insert_product (name description : string)
    (priceCents stockQuantity now : Z) (d : DB) : SqlError + (Z * DB) :=
  if negb (in_varchar255 name && in_text description)
  then inl DataTooLong
  else if negb (in_int32 priceCents && in_int32 stockQuantity
                && in_int32 (next_product_id d))
  then inl OutOfRange
  else
    let id := next_product_id d in
    let row := mkProduct id name description priceCents stockQuantity now in
    inr (id, mkDB (users d) (products d ++ [row]) (orders d)
                  (id + 1) (next_order_id d) (clientFoundRows d)).

(** The response GetOrder and GetUserOrders scan from a joined row. *)
Definition scan_order (op : OrderRow * Product) : OrderResponse :=
  mkOrderResponse (orders_id (fst op)) (orders_product_id (fst op))
    (Product_Name (snd op)) (orders_quantity (fst op))
    (orders_total_cents (fst op)) (status_label (orders_status (fst op)))
    (orders_created_at (fst op)).

(** OrderService.GetUserOrders *)
Definition GetUserOrders (userID : Z) (w : World) : list OrderResponse :=
  map scan_order
    (order_by_desc (fun op => orders_created_at (fst op))
       (filter (fun op => orders_user_id (fst op) =? userID)
          (orders_join_products (db w)))).

(** ProductService.GetProducts *)
Definition GetProducts (w : World) : list Product :=
  order_by_desc Product_CreatedAt (products (db w)).

(** models.ProductCreatedEvent has the three fields, and the JSON, of the
    struct UpdateProduct publishes; the topic tells the two apart. *)
Definition ProductCreatedEvent : Type := ProductUpdatedEvent.



(** The errors of CreateProduct: its own, or the one of the GetProduct it
    ends with. *)
Inductive CreateProductError :=
| ErrFailedToCreateProduct (cause : SqlError)  (* "failed to create product: %w" *)
| ErrReadingBack (e : Error).

(** ProductService.CreateProduct *)
Definition CreateProduct (req : ProductRequest) (now : Z) (w : World)
    : (CreateProductError + Product) * World :=
  match insert_product (ProductRequest_Name req)
          (ProductRequest_Description req) (ProductRequest_PriceCents req)
          (ProductRequest_StockQuantity req) now (db w) with
  | inl c => (inl (ErrFailedToCreateProduct c), w)
  | inr (productID, d') =>
    let w1 := mkWorld d' (published w) (open_transactions w) in
    match GetProduct productID w1 with
    | inl e => (inl (ErrReadingBack e), w1)
    | inr product =>
      (inr product,
       Publish "product/created"
         (ProductUpdatedPayload
            (mkProductUpdatedEvent (Product_ID product) (Product_Name product)
               now)) w1)
    end
  end.

(** ** Every operation of the services, and runs of them *)
Inductive ServiceOp :=
| DoCreateOrder (userID : Z) (req : OrderRequest)
| DoUpdateOrderStatus (orderID : Z) (status : string)
| DoCreateProduct (req : ProductRequest)
| DoUpdateProduct (id : Z) (req : ProductRequest)
| DoUpdateStock (productID newStock : Z).

Definition run_service_op (now : Z) (op : ServiceOp) (w : World) : World :=
  match op with
  | DoCreateOrder userID req => snd (CreateOrder userID req now w)
  | DoUpdateOrderStatus orderID status =>
    snd (UpdateOrderStatus orderID status now w)
  | DoCreateProduct req => snd (CreateProduct req now w)
  | DoUpdateProduct id req => snd (UpdateProduct id req now w)
  | DoUpdateStock productID newStock =>
    snd (UpdateStock productID newStock now w)
  end.

Definition run_service_ops (now : Z) (ops : list ServiceOp) (w : World)
    : World :=
  fold_left (fun w op => run_service_op now op w) ops w.

(** The keys of the schema: ids are unique in products and in orders and
    lie below the AUTO_INCREMENT counters, and every order refers to an
    existing product. *)
Definition db_consistent (d : DB) : Prop :=
  NoDup (map Product_ID (products d))
  /\ NoDup (map orders_id (orders d))
  /\ Forall (fun p => Product_ID p < next_product_id d) (products d)
  /\ Forall (fun o => orders_id o < next_order_id d) (orders d)
  /\ Forall (fun o => product_exists d (orders_product_id o) = true)
       (orders d).

(** ** internal/handlers/products.go *)

Inductive ProductErrorText :=
| InvalidProductID                          (* "Invalid product ID" *)
| ProductBindingError                       (* err.Error() of ShouldBindJSON *)
| ProductServiceError (e : Error)           (* err.Error() of the service *)
| ProductCreateError (e : CreateProductError).

Inductive ProductBody :=
| ProductErrorBody (e : ProductErrorText)   (* gin.H{"error": ...} *)
| OneProductBody (p : Product)
| ProductListBody (ps : list Product).

Record ProductResponse := mkProductResponse {
  product_status_code : Z;
  product_body : ProductBody
}.

(** The binding tags of models.ProductRequest: [required] refuses Go's zero
    value of the field, [min=n] a number below n. *)
Definition validate_ProductRequest (req : ProductRequest) : bool :=
  negb (String.eqb (ProductRequest_Name req) "")
  && (negb (ProductRequest_PriceCents req =? 0)
      && (1 <=? ProductRequest_PriceCents req))
  && (negb (ProductRequest_StockQuantity req =? 0)
      && (0 <=? ProductRequest_StockQuantity req)).

Section ProductHandlers.

(** The JSON decoding of a request body into models.ProductRequest. *)
Variable decode_ProductRequest : string -> option ProductRequest.
(** strconv.ParseInt(idStr, 10, 0) *)
Variable ParseInt : string -> option Z.

(** c.ShouldBindJSON(&req) on a models.ProductRequest *)
Definition ShouldBindJSON_ProductRequest (raw : string)
    : option ProductRequest :=
  match decode_ProductRequest raw with
  | None => None
  | Some req => if validate_ProductRequest req then Some req else None
  end.

(** ProductHandler.GetProducts *)
Definition ProductHandler_GetProducts (w : World) : ProductResponse :=
  mkProductResponse 200 (ProductListBody (GetProducts w)).

(** ProductHandler.GetProduct *)
Definition ProductHandler_GetProduct (idStr : string) (w : World)
    : ProductResponse :=
  match getIDFromParam ParseInt idStr with
  | None => mkProductResponse 400 (ProductErrorBody InvalidProductID)
  | Some id =>
    match GetProduct id w with
    | inl e => mkProductResponse 404 (ProductErrorBody (ProductServiceError e))
    | inr product => mkProductResponse 200 (OneProductBody product)
    end
  end.

(** ProductHandler.CreateProduct *)
Definition ProductHandler_CreateProduct (raw : string) (now : Z) (w : World)
    : ProductResponse * World :=
  match ShouldBindJSON_ProductRequest raw with
  | None => (mkProductResponse 400 (ProductErrorBody ProductBindingError), w)
  | Some req =>
    match CreateProduct req now w with
    | (inl e, w') =>
      (mkProductResponse 400 (ProductErrorBody (ProductCreateError e)), w')
    | (inr product, w') => (mkProductResponse 201 (OneProductBody product), w')
    end
  end.

(** ProductHandler.UpdateProduct *)
Definition ProductHandler_UpdateProduct (idStr raw : string) (now : Z)
    (w : World) : ProductResponse * World :=
  match getIDFromParam ParseInt idStr with
  | None => (mkProductResponse 400 (ProductErrorBody InvalidProductID), w)
  | Some id =>
    match ShouldBindJSON_ProductRequest raw with
    | None => (mkProductResponse 400 (ProductErrorBody ProductBindingError), w)
    | Some req =>
      match UpdateProduct id req now w with
      | (inl e, w') =>
        (mkProductResponse 400 (ProductErrorBody (ProductServiceError e)), w')
      | (inr product, w') =>
        (mkProductResponse 200 (OneProductBody product), w')
      end
    end
  end.

End ProductHandlers.

(** ** internal/database/connection.go *)

(** containsAt: the loop over the start positions 0 .. len(s)-len(substr);
    [i] is the position, [steps] the positions left to try. *)
Fixpoint containsAt_from (s substr : string) (i steps : nat) : bool :=
  match steps with
  | O => false
  | S steps' =>
    if String.eqb (substring i (String.length substr) s) substr then true
    else containsAt_from s substr (S i) steps'
  end.

Definition containsAt (s substr : string) : bool :=
  if (String.length s <? String.length substr)%nat then false
  else containsAt_from s substr 0
         (String.length s - String.length substr + 1).

(** contains *)
Definition contains (s substr : string) : bool :=
  (String.length substr <=? String.length s)%nat
  && (String.eqb s substr
      || ((String.length substr <? String.length s)%nat
          && (String.eqb (substring 0 (String.length substr) s) substr
              || String.eqb
                   (substring (String.length s - String.length substr)
                      (String.length substr) s) substr
              || containsAt s substr))).

(** The data source name Connect hands to sql.Open. *)
Definition Connect_databaseURL (databaseURL : string) : string :=
  if negb (String.eqb databaseURL "")
     && negb (contains databaseURL "parseTime=true")
  then
    let separator := if contains databaseURL "?" then "&" else "?" in
    (databaseURL ++ separator ++ "parseTime=true")%string
  else databaseURL.

(** The rows of insertSampleData: name, description, price, stock. *)
Definition sample_products : list (string * string * Z * Z) :=
  [("Go Programming Book", "Learn Go programming from scratch", 2999, 50);
   ("MQTT Sensor Kit", "IoT sensor kit with MQTT support", 4999, 25);
   ("Docker T-Shirt", "Comfortable cotton t-shirt with Docker logo",
    1999, 100);
   ("Wireless Mouse", "Ergonomic wireless mouse for developers", 3499, 75)].

(** The loop of insertSampleData: it stops at the first insert that fails,
    and what was inserted before stays. *)
Fixpoint insert_products (rows : list (string * string * Z * Z)) (now : Z)
    (d : DB) : option SqlError * DB :=
  match rows with
  | [] => (None, d)
  | (name, description, priceCents, stock) :: rows' =>
    match insert_product name description priceCents stock now d with
    | inl c => (Some c, d)
    | inr (_, d') => insert_products rows' now d'
    end
  end.

(** insertSampleData *)
Definition insertSampleData (now : Z) (d : DB) : option SqlError * DB :=
  let count := Z.of_nat (List.length (products d)) in
  if count >? 0 then (None, d)
  else insert_products sample_products now d.

(** A text of [n] times the letter a. *)
Fixpoint letters (n : nat) : string :=
  match n with
  | O => EmptyString
  | S n' => String "a" (letters n')
  end.

(** The four rows the sample data makes when the first of them takes the
    id [first] and all are created at [now]. *)
Definition sample_rows (first now : Z) : list Product :=
  [mkProduct first "Go Programming Book" "Learn Go programming from scratch"
             2999 50 now;
   mkProduct (first + 1) "MQTT Sensor Kit" "IoT sensor kit with MQTT support"
             4999 25 now;
   mkProduct (first + 2) "Docker T-Shirt"
             "Comfortable cotton t-shirt with Docker logo" 1999 100 now;
   mkProduct (first + 3) "Wireless Mouse"
             "Ergonomic wireless mouse for developers" 3499 75 now].

(** An order row and a later state of it: everything but the status is the
    same. *)
Definition same_order_but_status (o o' : OrderRow) : Prop :=
  orders_id o' = orders_id o
  /\ orders_user_id o' = orders_user_id o
  /\ orders_product_id o' = orders_product_id o
  /\ orders_quantity o' = orders_quantity o
  /\ orders_total_cents o' = orders_total_cents o
  /\ orders_created_at o' = orders_created_at o.

(** A product of price 1, for orders of extreme quantities. *)
Definition penny_world : World :=
  mkWorld
    (mkDB [mkUserRow 1 "john@example.com" "$2a$10$hash" 0]
          [mkProduct 1 "Sticker" "" 1 50 0]
          [] 2 1 false)
    [] 0.

(** An operation that writes a stock writes a non-negative one. *)
Definition op_writes_nonneg_stock (op : ServiceOp) : Prop :=
  match op with
  | DoCreateOrder _ _ => True
  | DoUpdateOrderStatus _ _ => True
  | DoCreateProduct req => 0 <= ProductRequest_StockQuantity req
  | DoUpdateProduct _ req => 0 <= ProductRequest_StockQuantity req
  | DoUpdateStock _ newStock => 0 <= newStock
  end.

(** ** internal/config/config.go *)

Record Config := mkConfig {
  Config_DatabaseURL : string;
  Config_MQTTBroker : string;
  Config_JWTSecret : string;
  Config_Port : string
}.

(** getEnv; [environ] is os.Getenv, which gives the empty string for a
    variable that is not set. *)
Definition getEnv (environ : string -> string) (key fallback : string)
    : string :=
  let value := environ key in
  if negb (String.eqb value "") then value else fallback.

(** Load *)
Definition Load (environ : string -> string) : Config :=
  mkConfig
    (getEnv environ "DATABASE_URL"
       "storeuser:storepass@tcp(localhost:3306)/onlinestore?parseTime=true")
    (getEnv environ "MQTT_BROKER" "tcp://localhost:1883")
    (getEnv environ "JWT_SECRET"
       "your-super-secret-jwt-key-change-this-in-production")
    (getEnv environ "PORT" "8080").

(** The environment of the api service in docker-compose.yml. *)
Definition compose_environment (key : string) : string :=
  if String.eqb key "DATABASE_URL"
  then "storeuser:storepass@tcp(mariadb:3306)/onlinestore?parseTime=true"
  else if String.eqb key "MQTT_BROKER" then "tcp://mqtt:1883"
  else if String.eqb key "JWT_SECRET"
  then "your-super-secret-jwt-key-change-this-in-production"
  else if String.eqb key "PORT" then "8080"
  else "".

(** * Properties *)

(** ** Records, ranges and wrap-around *)

Lemma DB_eta (d : DB) :
  mkDB (users d) (products d) (orders d) (next_product_id d)
       (next_order_id d) (clientFoundRows d) = d.
Proof. now destruct d. Qed.

Lemma World_eta (w : World) :
  mkWorld (db w) (published w) (open_transactions w) = w.
Proof. now destruct w. Qed.

Lemma rollback_untouched (d : DB) : rollback d d = d.
Proof. unfold rollback. apply DB_eta. Qed.

Lemma in_int32_bounds (z : Z) :
  in_int32 z = true <-> -2147483648 <= z <= 2147483647.
Proof. unfold in_int32. rewrite andb_true_iff, !Z.leb_le. tauto. Qed.

Lemma wrap64_small (z : Z) :
  - 2 ^ 63 <= z < 2 ^ 63 -> wrap64 z = z.
Proof.
  intros Hz. unfold wrap64.
  rewrite Z.mod_small by lia. lia.
Qed.

(** The product of two INT values does not overflow Go's int. *)
Lemma int_mul_exact (a b : Z) :
  in_int32 a = true -> in_int32 b = true -> int_mul a b = a * b.
Proof.
  rewrite !in_int32_bounds. intros Ha Hb.
  unfold int_mul. apply wrap64_small.
  change (2 ^ 63) with 9223372036854775808. nia.
Qed.

Lemma int_sub_exact (a b : Z) :
  in_int32 a = true -> in_int32 b = true -> int_sub a b = a - b.
Proof.
  rewrite !in_int32_bounds. intros Ha Hb.
  unfold int_sub. apply wrap64_small.
  change (2 ^ 63) with 9223372036854775808. lia.
Qed.

(** ** What a successful CreateOrder went through *)

(** Unfolds CreateOrder down to the statements it runs. *)
Ltac unfold_CreateOrder :=
  unfold CreateOrder, CreateOrder_end, CreateOrder_tx, CreateOrder_select,
    CreateOrder_reserve, tx_bind, tx_exec, tx_fail, tx_return, tx_ret.

Lemma CreateOrder_success_inv userID req now w resp w' :
  CreateOrder userID req now w = (inr resp, w') ->
  exists p orderID d1 n d2,
    let totalCents :=
      int_mul (Product_PriceCents p) (OrderRequest_Quantity req) in
    let newStock :=
      int_sub (Product_StockQuantity p) (OrderRequest_Quantity req) in
    select_product (db w) (OrderRequest_ProductID req) = Some p
    /\ OrderRequest_Quantity req <= Product_StockQuantity p
    /\ insert_order userID (OrderRequest_ProductID req)
         (OrderRequest_Quantity req) totalCents "pending" now (db w)
       = inr (orderID, d1)
    /\ update_stock newStock (OrderRequest_ProductID req) d1 = inr (n, d2)
    /\ resp = mkOrderResponse orderID (OrderRequest_ProductID req)
                (Product_Name p) (OrderRequest_Quantity req) totalCents
                "pending" now
    /\ db w' = d2
    /\ published w' =
         published w
         ++ order_created_message userID req orderID totalCents now
            :: (if newStock <? 10
                then [low_stock_message (OrderRequest_ProductID req)
                        (Product_Name p) newStock now]
                else []).
Proof.
  unfold_CreateOrder.
  destruct (select_product (db w) (OrderRequest_ProductID req)) as [p|] eqn:Hsel;
    [|discriminate].
  cbn [Product_StockQuantity Product_PriceCents Product_Name].
  destruct (Product_StockQuantity p <? OrderRequest_Quantity req) eqn:Hlt;
    [discriminate|].
  destruct (insert_order _ _ _ _ _ _ _) as [c|[orderID d1]] eqn:Hins;
    [discriminate|].
  destruct (update_stock _ _ d1) as [c|[n d2]] eqn:Hupd; [discriminate|].
  intros H. injection H as Hresp Hw.
  exists p, orderID, d1, n, d2. cbn zeta.
  apply Z.ltb_ge in Hlt.
  repeat split; auto.
  - subst w'.
    destruct (_ <? 10); reflexivity.
  - subst w'. unfold order_created_message, low_stock_message, Publish.
    destruct (_ <? 10); cbn; [rewrite <- app_assoc|]; reflexivity.
Qed.

Lemma insert_order_inv userID productID quantity totalCents status now d id d' :
  insert_order userID productID quantity totalCents status now d
    = inr (id, d') ->
  exists st,
    status_of_label status = Some st
    /\ in_int32 quantity = true /\ in_int32 totalCents = true
    /\ id = next_order_id d
    /\ users d' = users d /\ products d' = products d
    /\ orders d' =
         orders d ++ [mkOrderRow id userID productID quantity totalCents st now]
    /\ clientFoundRows d' = clientFoundRows d.
Proof.
  unfold insert_order.
  destruct (negb _) eqn:Hrange; [discriminate|].
  destruct (status_of_label status) as [st|]; [|discriminate].
  destruct (negb (user_exists _ _ && _)); [discriminate|].
  intros H. injection H as Hid Hd. subst id d'. cbn.
  apply negb_false_iff in Hrange.
  rewrite !andb_true_iff in Hrange.
  exists st. intuition.
Qed.

Lemma update_stock_inv newStock id d n d' :
  update_stock newStock id d = inr (n, d') ->
  users d' = users d
  /\ orders d' = orders d
  /\ products d' =
       map (fun p =>
              if Product_ID p =? id
              then mkProduct (Product_ID p) (Product_Name p)
                     (Product_Description p) (Product_PriceCents p) newStock
                     (Product_CreatedAt p)
              else p) (products d)
  /\ (product_exists d id = true -> in_int32 newStock = true).
Proof.
  unfold update_stock, product_exists.
  destruct (existsb _ _ && negb _) eqn:Hc; [discriminate|].
  intros H. injection H as _ Hd. subst d'. cbn.
  repeat split. intros Hex. rewrite Hex in Hc. cbn in Hc.
  now apply negb_false_iff in Hc.
Qed.

Lemma select_product_exists d id p :
  select_product d id = Some p ->
  product_exists d id = true /\ Product_ID p = id /\ In p (products d).
Proof.
  unfold select_product, product_exists. intros H.
  apply find_some in H as [Hin Hid]. apply Z.eqb_eq in Hid.
  split; [|tauto].
  apply existsb_exists. exists p. now rewrite Hid, Z.eqb_refl.
Qed.

(** After the UPDATE, the SELECT of the same id reads the new stock. *)
Lemma select_after_set_stock (ps : list Product) id newStock p :
  find (fun p => Product_ID p =? id) ps = Some p ->
  find (fun p => Product_ID p =? id)
    (map (fun p =>
            if Product_ID p =? id
            then mkProduct (Product_ID p) (Product_Name p)
                   (Product_Description p) (Product_PriceCents p) newStock
                   (Product_CreatedAt p)
            else p) ps)
  = Some (mkProduct (Product_ID p) (Product_Name p) (Product_Description p)
            (Product_PriceCents p) newStock (Product_CreatedAt p)).
Proof.
  induction ps as [|q ps IH]; cbn; [discriminate|].
  destruct (Product_ID q =? id) eqn:Hq; cbn.
  - rewrite Hq. now intros [= ->].
  - rewrite Hq. exact IH.
Qed.

(** ** Order creation *)

(** When the stock is short, CreateOrder returns InsufficientStock; the
    tables and the messages are as before, and the transaction it began is
    left open: the return does not go through [err], so the deferred
    function does not roll back. *)
Lemma CreateOrder_fails_when_stock_short userID req now w p :
  select_product (db w) (OrderRequest_ProductID req) = Some p ->
  Product_StockQuantity p < OrderRequest_Quantity req ->
  CreateOrder userID req now w
  = (inl (ErrInsufficientStock (Product_StockQuantity p)),
     mkWorld (db w) (published w) (open_transactions w + 1)).
Proof.
  intros Hsel Hlt.
  unfold_CreateOrder.
  rewrite Hsel. cbn [Product_StockQuantity].
  apply Z.ltb_lt in Hlt. rewrite Hlt. cbn.
  now rewrite rollback_untouched.
Qed.

Lemma CreateOrder_insufficient_stock_inv userID req now w available w' :
  CreateOrder userID req now w = (inl (ErrInsufficientStock available), w') ->
  db w' = db w
  /\ published w' = published w
  /\ open_transactions w' = open_transactions w + 1
  /\ exists p,
       select_product (db w) (OrderRequest_ProductID req) = Some p
       /\ Product_StockQuantity p = available
       /\ available < OrderRequest_Quantity req.
Proof.
  unfold_CreateOrder.
  destruct (select_product (db w) (OrderRequest_ProductID req)) as [p|] eqn:Hsel;
    [|discriminate].
  cbn [Product_StockQuantity Product_PriceCents Product_Name].
  destruct (Product_StockQuantity p <? OrderRequest_Quantity req) eqn:Hlt.
  - cbn. intros H. injection H as Hav Hw.
    rewrite rollback_untouched in Hw. subst w'. cbn.
    repeat split.
    exists p. apply Z.ltb_lt in Hlt. repeat split; auto; lia.
  - destruct (insert_order _ _ _ _ _ _ _) as [c|[orderID d1]];
      [discriminate|].
    destruct (update_stock _ _ d1) as [c|[n d2]]; [discriminate|].
    destruct (_ <? 10); discriminate.
Qed.

(** The neighbouring error return, for a product that does not exist, goes
    through [err]: the transaction is rolled back and the world is as it
    was. *)
Lemma CreateOrder_product_not_found_rolls_back userID req now w :
  select_product (db w) (OrderRequest_ProductID req) = None ->
  CreateOrder userID req now w = (inl ErrProductNotFound, w).
Proof.
  intros Hsel.
  unfold_CreateOrder.
  rewrite Hsel. cbn.
  now rewrite rollback_untouched, World_eta.
Qed.

(** C5.  Scenario C: the product is sold out and one unit is ordered.
    CreateOrder fails with InsufficientStock; no order row is inserted, the
    products are untouched and nothing is published.  The call does leave
    something behind: its transaction is neither committed nor rolled
    back. *)
Theorem CreateOrder_insufficient_stock_leaves_transaction_open :
  let r := CreateOrder 1 (mkOrderRequest 1 1) 100 sold_out_world in
  fst r = inl (ErrInsufficientStock 0)
  /\ orders (db (snd r)) = []
  /\ db (snd r) = db sold_out_world
  /\ published (snd r) = []
  /\ open_transactions sold_out_world = 0
  /\ open_transactions (snd r) = 1
  /\ snd r <> sold_out_world.
Proof. repeat split; try reflexivity. discriminate. Qed.

(** Twenty-five refused orders later every connection of the pool belongs
    to a transaction that nothing will close. *)
Example refused_orders_use_up_the_pool :
  open_transactions
    (run_ops 100 (repeat (OpCreateOrder 1 (mkOrderRequest 1 1)) 25)
       sold_out_world)
  = MaxOpenConns.
Proof. reflexivity. Qed.

(** C7.  A successful CreateOrder for a quantity [q] of a product it reads
    with a stock [s] (an INT value) leaves the product with the stock
    [s - q], hands the broker one order/created message and, after it, one
    inventory/low_stock message exactly when [s - q] is below 10; the alert
    carries that stock and nothing else is published. *)
Theorem CreateOrder_emits_events userID req now w resp w' p :
  select_product (db w) (OrderRequest_ProductID req) = Some p ->
  in_int32 (Product_StockQuantity p) = true ->
  CreateOrder userID req now w = (inr resp, w') ->
  select_product (db w') (OrderRequest_ProductID req)
  = Some (mkProduct (Product_ID p) (Product_Name p) (Product_Description p)
            (Product_PriceCents p)
            (Product_StockQuantity p - OrderRequest_Quantity req)
            (Product_CreatedAt p))
  /\ published w' =
       published w
       ++ order_created_message userID req (OrderResponse_ID resp)
            (OrderResponse_TotalCents resp) now
          :: (if Product_StockQuantity p - OrderRequest_Quantity req <? 10
              then [low_stock_message (OrderRequest_ProductID req)
                      (Product_Name p)
                      (Product_StockQuantity p - OrderRequest_Quantity req)
                      now]
              else [])
  /\ ((exists m, In m (skipn (List.length (published w)) (published w'))
                 /\ topic m = "inventory/low_stock")
      <-> Product_StockQuantity p - OrderRequest_Quantity req < 10).
Proof.
  intros Hsel Hstock H.
  apply CreateOrder_success_inv in H
    as (p0 & orderID & d1 & n & d2 & Hsel0 & Hle & Hins & Hupd & Hresp & Hdb
        & Hpub).
  cbn zeta in *.
  rewrite Hsel in Hsel0. injection Hsel0 as <-.
  apply insert_order_inv in Hins as (st & _ & Hq & _ & _ & _ & Hps & _ & _).
  apply update_stock_inv in Hupd as (_ & _ & Hps2 & _).
  rewrite (int_sub_exact _ _ Hstock Hq) in Hps2, Hpub.
  set (newStock := Product_StockQuantity p - OrderRequest_Quantity req) in *.
  split; [|split].
  - unfold select_product in *. rewrite Hdb, Hps2, Hps.
    now apply select_after_set_stock.
  - rewrite Hpub, Hresp. reflexivity.
  - rewrite Hpub, skipn_app, skipn_all, Nat.sub_diag. cbn [skipn app].
    destruct (newStock <? 10) eqn:Hlow.
    + apply Z.ltb_lt in Hlow. split; [tauto|]. intros _.
      eexists. split; [right; left; reflexivity|reflexivity].
    + apply Z.ltb_ge in Hlow. split; [|lia].
      intros (m & [<-|[]] & Ht). discriminate.
Qed.

(** Scenario B (stock 11, quantity 2: new stock 9, both messages) and
    scenario A (stock 50, quantity 2: new stock 48, one message). *)
Lemma CreateOrder_emits_events_witness :
  (let w' := snd (CreateOrder 1 (mkOrderRequest 1 2) 100 eleven_left_world) in
   select_product (db w') 1
   = Some (mkProduct 1 "Go Programming Book"
             "Learn Go programming from scratch" 2999 9 0)
   /\ published w'
      = [order_created_message 1 (mkOrderRequest 1 2) 1 5998 100;
         low_stock_message 1 "Go Programming Book" 9 100]
   /\ ((exists m, In m (published w') /\ topic m = "inventory/low_stock")
       <-> 9 < 10))
  /\ (let w' := snd (CreateOrder 1 (mkOrderRequest 1 2) 100 sample_world) in
      select_product (db w') 1
      = Some (mkProduct 1 "Go Programming Book"
                "Learn Go programming from scratch" 2999 48 0)
      /\ published w'
         = [order_created_message 1 (mkOrderRequest 1 2) 1 5998 100]
      /\ ((exists m, In m (published w') /\ topic m = "inventory/low_stock")
          <-> 48 < 10)).
Proof.
  split.
  - exact (CreateOrder_emits_events 1 (mkOrderRequest 1 2) 100
             eleven_left_world
             (mkOrderResponse 1 1 "Go Programming Book" 2 5998 "pending" 100)
             (snd (CreateOrder 1 (mkOrderRequest 1 2) 100 eleven_left_world))
             (mkProduct 1 "Go Programming Book"
                "Learn Go programming from scratch" 2999 11 0)
             eq_refl eq_refl eq_refl).
  - exact (CreateOrder_emits_events 1 (mkOrderRequest 1 2) 100 sample_world
             (mkOrderResponse 1 1 "Go Programming Book" 2 5998 "pending" 100)
             (snd (CreateOrder 1 (mkOrderRequest 1 2) 100 sample_world))
             (mkProduct 1 "Go Programming Book"
                "Learn Go programming from scratch" 2999 50 0)
             eq_refl eq_refl eq_refl).
Defined.

(** Scenario B, evaluated: new stock 9, both messages. *)
Example scenario_B :
  let w' := snd (CreateOrder 1 (mkOrderRequest 1 2) 100 eleven_left_world) in
  option_map Product_StockQuantity (select_product (db w') 1) = Some 9
  /\ map topic (published w') = ["order/created"; "inventory/low_stock"].
Proof. split; reflexivity. Qed.

(** Scenario A, evaluated: price 2999, stock 50, quantity 2. *)
Example scenario_A :
  let r := CreateOrder 1 (mkOrderRequest 1 2) 100 sample_world in
  option_map OrderResponse_TotalCents
    (match fst r with inr o => Some o | inl _ => None end) = Some 5998
  /\ option_map OrderResponse_Status
       (match fst r with inr o => Some o | inl _ => None end) = Some "pending"
  /\ option_map Product_StockQuantity (select_product (db (snd r)) 1) = Some 48
  /\ map topic (published (snd r)) = ["order/created"].
Proof. repeat split; reflexivity. Qed.

(** ** The total of an order *)

Lemma UpdateProduct_keeps_orders id req now w :
  orders (db (snd (UpdateProduct id req now w))) = orders (db w).
Proof.
  unfold UpdateProduct, update_product.
  destruct (existsb _ _ && negb (in_varchar255 _ && _)); [reflexivity|].
  destruct (existsb _ _ && negb _); [reflexivity|].
  cbn. destruct (GetProduct _ _); reflexivity.
Qed.

Lemma update_products_keeps_orders now reqs w :
  orders (db (update_products now reqs w)) = orders (db w).
Proof.
  unfold update_products. revert w.
  induction reqs as [|r reqs IH]; intros w; cbn; [reflexivity|].
  rewrite IH. apply UpdateProduct_keeps_orders.
Qed.

(** C6.  The row a successful CreateOrder inserts carries, as its total,
    the unit price the product had when the order was placed times the
    ordered quantity, and so does the response; whatever UpdateProduct
    calls follow, the orders table still holds the same rows.  The price
    read from the products table is an INT value. *)
Theorem order_total_is_price_times_quantity_and_frozen
    userID req now w resp w' p :
  in_int32 (Product_PriceCents p) = true ->
  select_product (db w) (OrderRequest_ProductID req) = Some p ->
  CreateOrder userID req now w = (inr resp, w') ->
  exists o,
    orders (db w') = orders (db w) ++ [o]
    /\ orders_id o = OrderResponse_ID resp
    /\ orders_quantity o = OrderRequest_Quantity req
    /\ orders_total_cents o
       = Product_PriceCents p * OrderRequest_Quantity req
    /\ OrderResponse_TotalCents resp
       = Product_PriceCents p * OrderRequest_Quantity req
    /\ forall now' reqs,
         orders (db (update_products now' reqs w')) = orders (db w) ++ [o].
Proof.
  intros Hprice Hsel H.
  apply CreateOrder_success_inv in H
    as (p0 & orderID & d1 & n & d2 & Hsel0 & Hle & Hins & Hupd & Hresp & Hdb & _).
  cbn zeta in *.
  rewrite Hsel in Hsel0. injection Hsel0 as <-.
  apply insert_order_inv in Hins
    as (st & _ & Hq & _ & _ & _ & _ & Hos & _).
  apply update_stock_inv in Hupd as (_ & Hos2 & _ & _).
  rewrite (int_mul_exact _ _ Hprice Hq) in *.
  assert (Horders : orders (db w') =
            orders (db w)
            ++ [mkOrderRow orderID userID (OrderRequest_ProductID req)
                  (OrderRequest_Quantity req)
                  (Product_PriceCents p * OrderRequest_Quantity req) st now])
    by now rewrite Hdb, Hos2, Hos.
  eexists. split; [exact Horders|].
  subst resp. cbn.
  repeat split.
  intros now' reqs.
  now rewrite update_products_keeps_orders.
Qed.

Lemma order_total_is_price_times_quantity_and_frozen_witness :
  exists o,
    orders (db (snd (CreateOrder 1 (mkOrderRequest 1 2) 100 sample_world)))
    = [] ++ [o]
    /\ orders_id o = 1
    /\ orders_quantity o = 2
    /\ orders_total_cents o = 2999 * 2
    /\ 5998 = 2999 * 2
    /\ forall now' reqs,
         orders (db (update_products now' reqs
                       (snd (CreateOrder 1 (mkOrderRequest 1 2) 100
                               sample_world))))
         = [] ++ [o].
Proof.
  exact (order_total_is_price_times_quantity_and_frozen
           1 (mkOrderRequest 1 2) 100 sample_world _ _
           (mkProduct 1 "Go Programming Book"
              "Learn Go programming from scratch" 2999 50 0)
           eq_refl eq_refl eq_refl).
Defined.

(** The price of product 1 is raised from 2999 to 9999 after the order:
    the product changes, the order read back still totals 5998. *)
Example order_total_survives_price_change :
  let w1 := snd (CreateOrder 1 (mkOrderRequest 1 2) 100 sample_world) in
  let w2 :=
    snd (UpdateProduct 1 (mkProductRequest "Go Programming Book" "" 9999 48)
           200 w1) in
  option_map Product_PriceCents (select_product (db w2) 1) = Some 9999
  /\ match GetOrder 1 1 w2 with
     | inr o => OrderResponse_TotalCents o
     | inl _ => 0
     end = 5998.
Proof. split; reflexivity. Qed.

(** ** Stock levels *)

Lemma CreateOrder_failure_keeps_tables userID req now w e w' :
  CreateOrder userID req now w = (inl e, w') ->
  products (db w') = products (db w)
  /\ orders (db w') = orders (db w)
  /\ published w' = published w.
Proof.
  unfold CreateOrder, CreateOrder_end.
  destruct (CreateOrder_tx userID req now (db w))
    as [[e0|[[[product totalCents] orderID] newStock]] d'].
  - intros [= _ <-]. cbn. auto.
  - cbn zeta. discriminate.
Qed.

(** The reservation of CreateOrder never takes a stock below zero,
    whatever quantity is asked for. *)
Lemma CreateOrder_keeps_stock_nonneg userID req now w :
  stock_nonneg (db w) ->
  stock_nonneg (db (snd (CreateOrder userID req now w))).
Proof.
  intros Hok.
  destruct (CreateOrder userID req now w) as [[e|resp] w'] eqn:H; cbn [snd].
  - apply CreateOrder_failure_keeps_tables in H as (Hps & _).
    unfold stock_nonneg. now rewrite Hps.
  - apply CreateOrder_success_inv in H
      as (p & orderID & d1 & n & d2 & Hsel & Hle & Hins & Hupd & _ & Hdb & _).
    cbn zeta in *.
    apply insert_order_inv in Hins as (st & _ & Hq & _ & _ & _ & Hps & _ & _).
    pose proof Hupd as Hupd'.
    apply update_stock_inv in Hupd' as (_ & _ & Hps2 & Hfit).
    apply select_product_exists in Hsel as (Hex & _ & Hin).
    unfold stock_nonneg in *.
    pose proof (proj1 (Forall_forall _ _) Hok p Hin) as Hp.
    cbn beta in Hp.
    assert (Hs : in_int32 (Product_StockQuantity p) = true)
      by (apply in_int32_bounds; lia).
    rewrite (int_sub_exact _ _ Hs Hq) in *.
    assert (Hnew : in_int32
              (Product_StockQuantity p - OrderRequest_Quantity req) = true).
    { apply Hfit. unfold product_exists in *. now rewrite Hps. }
    apply in_int32_bounds in Hnew.
    rewrite Hdb, Hps2, Hps. apply Forall_map.
    eapply Forall_impl; [|exact Hok].
    intros q Hq0. cbv beta in *.
    destruct (Product_ID q =? _); cbn [Product_StockQuantity]; lia.
Qed.

(** UpdateStock keeps the stocks non-negative when it is given a
    non-negative quantity. *)
Lemma UpdateStock_keeps_stock_nonneg productID newStock now w :
  0 <= newStock ->
  stock_nonneg (db w) ->
  stock_nonneg (db (snd (UpdateStock productID newStock now w))).
Proof.
  intros Hnew Hok. unfold UpdateStock.
  destruct (update_stock newStock productID (db w)) as [c|[n d']] eqn:Hupd;
    [exact Hok|].
  apply update_stock_inv in Hupd as (_ & _ & Hps & Hfit).
  assert (Hd' : stock_nonneg d').
  { unfold stock_nonneg in *. rewrite Hps. apply Forall_map.
    apply Forall_forall. intros q Hin.
    pose proof (proj1 (Forall_forall _ _) Hok q Hin) as Hq.
    cbn beta in Hq.
    destruct (Product_ID q =? productID) eqn:Hid; cbn; [|exact Hq].
    assert (Hex : product_exists (db w) productID = true).
    { apply existsb_exists. now exists q. }
    apply Hfit, in_int32_bounds in Hex. lia. }
  destruct (newStock <? 10); [|exact Hd'].
  destruct (GetProduct _ _); exact Hd'.
Qed.

(** Along a run of orders and stock updates, the stocks stay non-negative
    as long as no update sets a negative one. *)
Lemma run_ops_keeps_stock_nonneg now ops w :
  Forall op_sets_nonneg_stock ops ->
  stock_nonneg (db w) ->
  stock_nonneg (db (run_ops now ops w)).
Proof.
  unfold run_ops. intros Hops. revert w.
  induction Hops as [|op ops Hop _ IH]; intros w Hok; cbn; [exact Hok|].
  apply IH. destruct op as [userID req|productID newStock]; cbn in *.
  - now apply CreateOrder_keeps_stock_nonneg.
  - now apply UpdateStock_keeps_stock_nonneg.
Qed.

(** C1.  UpdateStock stores the quantity it is given without looking at its
    sign: after the one-step run that sets the stock of product 1 to -5 the
    product's stock is -5, and the call reports success; the low-stock
    alert that follows carries the negative stock. *)
Theorem UpdateStock_stores_negative_stock :
  let w' := run_ops 100 [OpUpdateStock 1 (-5)] sample_world in
  fst (UpdateStock 1 (-5) 100 sample_world) = inr tt
  /\ option_map Product_StockQuantity (select_product (db w') 1) = Some (-5)
  /\ published w' = [low_stock_message 1 "Go Programming Book" (-5) 100].
Proof. repeat split; reflexivity. Qed.

(** The same through the inventory/update handler, for any payload that
    decodes to product 1 and new stock -5. *)
Lemma handleInventoryUpdate_stores_negative_stock unmarshal msg :
  unmarshal msg = Some (mkInventoryUpdate 1 (-5)) ->
  let r := handleInventoryUpdate unmarshal msg 100 sample_world in
  fst r = [LogReceivedInventoryUpdate msg; LogUpdatedStock 1 (-5)]
  /\ option_map Product_StockQuantity (select_product (db (snd r)) 1)
     = Some (-5).
Proof.
  intros Hdec. unfold handleInventoryUpdate. rewrite Hdec.
  split; reflexivity.
Qed.

(** ** Quantity validation *)

(** C8, as stated, fails on the service: OrderService.CreateOrder does not
    look at the sign of the quantity.  Asked for -3 items of product 1 it
    succeeds, inserts an order of quantity -3 and total -8997, raises the
    stock from 50 to 53 and publishes order/created. *)
Lemma CreateOrder_accepts_nonpositive_quantity :
  let r := CreateOrder 1 (mkOrderRequest 1 (-3)) 100 sample_world in
  fst r = inr (mkOrderResponse 1 1 "Go Programming Book" (-3) (-8997)
                 "pending" 100)
  /\ orders (db (snd r)) = [mkOrderRow 1 1 1 (-3) (-8997) pending 100]
  /\ option_map Product_StockQuantity (select_product (db (snd r)) 1)
     = Some 53
  /\ map topic (published (snd r)) = ["order/created"].
Proof. repeat split; reflexivity. Qed.

(** A quantity of zero is accepted as well. *)
Example CreateOrder_accepts_zero_quantity :
  fst (CreateOrder 1 (mkOrderRequest 1 0) 100 sample_world)
  = inr (mkOrderResponse 1 1 "Go Programming Book" 0 0 "pending" 100).
Proof. reflexivity. Qed.

Lemma validate_OrderRequest_quantity req :
  validate_OrderRequest req = true -> 1 <= OrderRequest_Quantity req.
Proof.
  unfold validate_OrderRequest. rewrite !andb_true_iff, Z.leb_le. tauto.
Qed.

(** C8, amended.  The check of the quantity is the binding rule of
    models.OrderRequest, applied by OrderHandler.CreateOrder before the
    service is called: a request of an authenticated user whose body
    decodes to a non-positive quantity is answered 400 with the binding
    error, and the world is left as it was. *)
Theorem OrderHandler_CreateOrder_rejects_nonpositive_quantity
    (decode : string -> option OrderRequest) userID raw now w req :
  decode raw = Some req ->
  OrderRequest_Quantity req <= 0 ->
  OrderHandler_CreateOrder decode (Some userID) raw now w
  = (mkResponse 400 (ErrorBody BindingError), w).
Proof.
  intros Hdec Hq. unfold OrderHandler_CreateOrder, ShouldBindJSON.
  rewrite Hdec.
  destruct (validate_OrderRequest req) eqn:Hv; [|reflexivity].
  apply validate_OrderRequest_quantity in Hv. lia.
Qed.

Lemma OrderHandler_CreateOrder_rejects_nonpositive_quantity_witness :
  OrderHandler_CreateOrder
    (decode_only "product 1, quantity -3" (mkOrderRequest 1 (-3)))
    (Some 1) "product 1, quantity -3" 100 sample_world
  = (mkResponse 400 (ErrorBody BindingError), sample_world).
Proof.
  apply (OrderHandler_CreateOrder_rejects_nonpositive_quantity
           (decode_only "product 1, quantity -3" (mkOrderRequest 1 (-3)))
           1 "product 1, quantity -3" 100 sample_world
           (mkOrderRequest 1 (-3))).
  - reflexivity.
  - cbn. lia.
Defined.

(** ** Reading an order *)

Lemma find_none_iff {A : Type} (f : A -> bool) (l : list A) :
  (forall x, In x l -> f x = false) -> find f l = None.
Proof.
  intros H. destruct (find f l) as [x|] eqn:Hf; [|reflexivity].
  apply find_some in Hf as [Hin Hx]. rewrite (H x Hin) in Hx. discriminate.
Qed.

Lemma in_orders_join_products d o p :
  In (o, p) (orders_join_products d) -> In o (orders d).
Proof.
  unfold orders_join_products. rewrite in_flat_map.
  intros (o' & Hin & Hmap). apply in_map_iff in Hmap as (p' & [= <- _] & _).
  exact Hin.
Qed.

Lemma GetOrder_not_of_user orderID userID w :
  order_of_user orderID userID (db w) = false ->
  GetOrder orderID userID w = inl ErrOrderNotFound.
Proof.
  intros Hno. unfold GetOrder.
  rewrite find_none_iff; [reflexivity|].
  intros [o p] Hin. cbn [fst].
  apply in_orders_join_products in Hin.
  unfold order_of_user in Hno.
  destruct ((orders_id o =? orderID) && (orders_user_id o =? userID)) eqn:Hm;
    [|reflexivity].
  assert (Hex : existsb
            (fun o => (orders_id o =? orderID) && (orders_user_id o =? userID))
            (orders (db w)) = true)
    by (apply existsb_exists; now exists o).
  congruence.
Qed.

Lemma order_absent_not_of_user orderID userID d :
  order_present orderID d = false -> order_of_user orderID userID d = false.
Proof.
  unfold order_present, order_of_user.
  induction (orders d) as [|o os IH]; cbn; [reflexivity|].
  rewrite !orb_false_iff. intros [Ho Hos].
  rewrite Ho. cbn. auto.
Qed.

(** C9.  GetOrder answers with an order only when a row with that id and
    that user id exists, and the response is that of such a row.  For an
    order that exists but belongs to someone else the result is the
    "order not found" error, the very result obtained where no order with
    that id exists; the HTTP handler turns both into the same 404. *)
Theorem GetOrder_foreign_order_is_not_found
    orderID userID w_foreign w_absent :
  order_present orderID (db w_foreign) = true ->
  order_of_user orderID userID (db w_foreign) = false ->
  order_present orderID (db w_absent) = false ->
  GetOrder orderID userID w_foreign = inl ErrOrderNotFound
  /\ GetOrder orderID userID w_foreign = GetOrder orderID userID w_absent
  /\ (forall (ParseInt : string -> option Z) idStr,
        ParseInt idStr = Some orderID ->
        OrderHandler_GetOrder ParseInt (Some userID) idStr w_foreign
        = mkResponse 404 (ErrorBody (ServiceError ErrOrderNotFound))
        /\ OrderHandler_GetOrder ParseInt (Some userID) idStr w_foreign
           = OrderHandler_GetOrder ParseInt (Some userID) idStr w_absent)
  /\ (forall w resp,
        GetOrder orderID userID w = inr resp ->
        exists o,
          In o (orders (db w))
          /\ orders_id o = orderID /\ orders_user_id o = userID
          /\ OrderResponse_ID resp = orderID
          /\ OrderResponse_Quantity resp = orders_quantity o
          /\ OrderResponse_TotalCents resp = orders_total_cents o).
Proof.
  intros _ Hforeign Habsent.
  pose proof (GetOrder_not_of_user _ _ _ Hforeign) as H1.
  pose proof (GetOrder_not_of_user _ _ _
                (order_absent_not_of_user _ userID _ Habsent)) as H2.
  split; [exact H1|]. split; [congruence|]. split.
  - intros ParseInt idStr Hid.
    unfold OrderHandler_GetOrder, getIDFromParam.
    rewrite Hid, H1, H2. split; reflexivity.
  - intros w resp. unfold GetOrder.
    destruct (find _ _) as [[o p]|] eqn:Hf; [|discriminate].
    intros [= <-]. apply find_some in Hf as [Hin Hm]. cbn [fst] in Hm.
    apply andb_true_iff in Hm as [Ho Hu].
    apply Z.eqb_eq in Ho, Hu.
    apply in_orders_join_products in Hin.
    exists o. cbn. repeat split; auto.
Qed.

Lemma GetOrder_foreign_order_is_not_found_witness :
  GetOrder 1 2 one_order_world = inl ErrOrderNotFound
  /\ GetOrder 1 2 one_order_world = GetOrder 1 2 no_order_world.
Proof.
  pose proof (GetOrder_foreign_order_is_not_found 1 2 one_order_world
                no_order_world eq_refl eq_refl eq_refl) as (H1 & H2 & _).
  exact (conj H1 H2).
Defined.

(** The owner does read the order. *)
Example GetOrder_owner :
  GetOrder 1 1 one_order_world
  = inr (mkOrderResponse 1 1 "Go Programming Book" 2 5998 "pending" 100).
Proof. reflexivity. Qed.

(** ** Order status *)

Lemma status_of_label_label st : status_of_label (status_label st) = Some st.
Proof. now destruct st. Qed.

Lemma OrderStatus_eqb_eq a b : OrderStatus_eqb a b = true <-> a = b.
Proof. destruct a, b; cbn; split; congruence. Qed.

Lemma UpdateOrderStatus_orders orderID st now w :
  orders (db (snd (UpdateOrderStatus orderID (status_label st) now w)))
  = map (set_status orderID st) (orders (db w)).
Proof.
  unfold UpdateOrderStatus, update_order_status.
  rewrite status_of_label_label.
  destruct (rows_affected _ _ _ _ =? 0); reflexivity.
Qed.

Lemma set_status_same orderID st (os : list OrderRow) :
  forallb (fun o => negb (orders_id o =? orderID)
                    || OrderStatus_eqb (orders_status o) st) os = true ->
  map (set_status orderID st) os = os.
Proof.
  induction os as [|o os IH]; cbn; [reflexivity|].
  rewrite andb_true_iff. intros [Ho Hos]. rewrite (IH Hos). f_equal.
  unfold set_status. destruct (orders_id o =? orderID); [|reflexivity].
  cbn in Ho. apply OrderStatus_eqb_eq in Ho. subst st. now destruct o.
Qed.

(** With RowsAffected counting changed rows, asking for the status every
    matching order already has reports "order not found" and changes
    nothing. *)
Lemma UpdateOrderStatus_same_status_is_not_found orderID st now w :
  clientFoundRows (db w) = false ->
  forallb (fun o => negb (orders_id o =? orderID)
                    || OrderStatus_eqb (orders_status o) st)
          (orders (db w)) = true ->
  UpdateOrderStatus orderID (status_label st) now w
  = (inl ErrOrderNotFound, w).
Proof.
  intros Hflag Hsame.
  unfold UpdateOrderStatus, update_order_status.
  rewrite status_of_label_label.
  assert (Hrows : rows_affected (db w)
            (fun o => orders_id o =? orderID)
            (fun o => negb (OrderStatus_eqb (orders_status o) st))
            (orders (db w)) = 0).
  { unfold rows_affected. rewrite Hflag.
    induction (orders (db w)) as [|o os IH]; [reflexivity|].
    cbn in Hsame. apply andb_true_iff in Hsame as [Ho Hos].
    cbn [filter orb].
    destruct (orders_id o =? orderID); cbn in Ho |- *.
    - rewrite Ho. cbn. now apply IH.
    - now apply IH. }
  rewrite Hrows. cbn [Z.eqb].
  fold (set_status orderID st).
  change (map (fun o => if orders_id o =? orderID
                        then mkOrderRow (orders_id o) (orders_user_id o)
                               (orders_product_id o) (orders_quantity o)
                               (orders_total_cents o) st (orders_created_at o)
                        else o) (orders (db w)))
    with (map (set_status orderID st) (orders (db w))).
  now rewrite (set_status_same _ _ _ Hsame), DB_eta, World_eta.
Qed.

(** With RowsAffected counting matched rows, the same request succeeds on
    every existing order. *)
Lemma UpdateOrderStatus_found_rows_succeeds orderID st now w :
  clientFoundRows (db w) = true ->
  order_present orderID (db w) = true ->
  fst (UpdateOrderStatus orderID (status_label st) now w) = inr tt.
Proof.
  intros Hflag Hex.
  unfold UpdateOrderStatus, update_order_status.
  rewrite status_of_label_label.
  assert (Hrows : rows_affected (db w)
            (fun o => orders_id o =? orderID)
            (fun o => negb (OrderStatus_eqb (orders_status o) st))
            (orders (db w)) <> 0).
  { unfold rows_affected, order_present in *. rewrite Hflag.
    induction (orders (db w)) as [|o os IH]; [discriminate|].
    cbn [filter orb]. cbn in Hex.
    destruct (orders_id o =? orderID); cbn in Hex |- *; [lia|now apply IH]. }
  apply Z.eqb_neq in Hrows. now rewrite Hrows.
Qed.

Lemma handlePaymentConfirmed_world
    (unmarshal : string -> option PaymentConfirmation) msg now w payment :
  unmarshal msg = Some payment ->
  snd (handlePaymentConfirmed unmarshal msg now w)
  = snd (UpdateOrderStatus (PaymentConfirmation_OrderID payment) "paid" now w).
Proof.
  intros Hdec. unfold handlePaymentConfirmed. rewrite Hdec.
  now destruct (UpdateOrderStatus _ _ _ _) as [[e|[]] w'].
Qed.

Lemma UpdateOrderStatus_published orderID status now w m :
  In m (published (snd (UpdateOrderStatus orderID status now w))) ->
  In m (published w) \/ m = status_changed_message orderID status now.
Proof.
  unfold UpdateOrderStatus.
  destruct (update_order_status status orderID (db w)) as [c|[n d']];
    [now left|].
  destruct (n =? 0); cbn; [now left|].
  rewrite in_app_iff. cbn. intuition.
Qed.

(** C10.  For a payment/confirmed payload that decodes, the handler rewrites
    the orders table by setting to [paid] the status of the order the
    payload names, and what it publishes is a status change to "paid"; the
    status string of the payload plays no part: two payloads naming the
    same order leave the same world behind. *)
Theorem handlePaymentConfirmed_writes_paid
    (unmarshal : string -> option PaymentConfirmation) msg now w payment :
  unmarshal msg = Some payment ->
  let w' := snd (handlePaymentConfirmed unmarshal msg now w) in
  orders (db w')
  = map (set_status (PaymentConfirmation_OrderID payment) paid)
        (orders (db w))
  /\ (forall m,
        In m (published w') ->
        In m (published w)
        \/ m = status_changed_message (PaymentConfirmation_OrderID payment)
                 "paid" now)
  /\ (forall msg2 payment2,
        unmarshal msg2 = Some payment2 ->
        PaymentConfirmation_OrderID payment2
        = PaymentConfirmation_OrderID payment ->
        snd (handlePaymentConfirmed unmarshal msg2 now w) = w').
Proof.
  intros Hdec w'. subst w'.
  rewrite (handlePaymentConfirmed_world _ _ _ _ _ Hdec).
  split; [|split].
  - apply (UpdateOrderStatus_orders _ paid).
  - intros m. apply UpdateOrderStatus_published.
  - intros msg2 payment2 Hdec2 Hid.
    rewrite (handlePaymentConfirmed_world _ _ _ _ _ Hdec2).
    now rewrite Hid.
Qed.

Lemma handlePaymentConfirmed_writes_paid_witness :
  orders (db (snd (handlePaymentConfirmed unmarshal_payment_example
                     (payment_payload "pending") 101 one_order_world)))
  = [mkOrderRow 1 1 1 2 5998 paid 100]
  /\ snd (handlePaymentConfirmed unmarshal_payment_example
            (payment_payload "paid") 101 one_order_world)
     = snd (handlePaymentConfirmed unmarshal_payment_example
              (payment_payload "pending") 101 one_order_world).
Proof.
  pose proof (handlePaymentConfirmed_writes_paid unmarshal_payment_example
                (payment_payload "pending") 101 one_order_world
                (mkPaymentConfirmation 1 "pending") eq_refl) as (H1 & _ & H3).
  split.
  - exact H1.
  - exact (H3 (payment_payload "paid") (mkPaymentConfirmation 1 "paid")
              eq_refl eq_refl).
Defined.

(** C3.  The payload of the usage examples is delivered twice for order 1,
    which is pending.  The first delivery sets the order to paid and
    publishes the status change.  The second finds the order already paid:
    the UPDATE changes no row, RowsAffected is 0, UpdateOrderStatus returns
    "order not found" and the handler logs the failure.  The order stays
    paid and nothing more is published. *)
Theorem payment_confirmed_redelivery_reports_order_not_found :
  let deliver :=
    handlePaymentConfirmed unmarshal_payment_example (payment_payload "paid") in
  let first := deliver 101 one_order_world in
  let second := deliver 102 (snd first) in
  fst first = [LogReceivedPaymentConfirmation (payment_payload "paid");
               LogUpdatedOrderStatusToPaid 1]
  /\ orders (db (snd first)) = [mkOrderRow 1 1 1 2 5998 paid 100]
  /\ published (snd first) = [status_changed_message 1 "paid" 101]
  /\ fst (UpdateOrderStatus 1 "paid" 102 (snd first)) = inl ErrOrderNotFound
  /\ fst second = [LogReceivedPaymentConfirmation (payment_payload "paid");
                   LogFailedToUpdateOrderStatus ErrOrderNotFound]
  /\ snd second = snd first.
Proof. repeat split; reflexivity. Qed.

(** C4, as stated, fails: UpdateOrderStatus takes order 1 from paid back to
    pending, reports success and publishes the change. *)
Lemma UpdateOrderStatus_moves_paid_back_to_pending :
  let w_paid := snd (UpdateOrderStatus 1 "paid" 101 one_order_world) in
  let r := UpdateOrderStatus 1 "pending" 102 w_paid in
  orders (db w_paid) = [mkOrderRow 1 1 1 2 5998 paid 100]
  /\ fst r = inr tt
  /\ orders (db (snd r)) = [mkOrderRow 1 1 1 2 5998 pending 100]
  /\ published (snd r) = [status_changed_message 1 "paid" 101;
                          status_changed_message 1 "pending" 102].
Proof. repeat split; reflexivity. Qed.

(** C4, amended.  UpdateOrderStatus makes no check of the transition: for
    each of the four statuses, the orders table after the call is the table
    before it with that status written to the rows of the given id,
    whatever status they had.  The payment/confirmed handler, its caller,
    asks for [paid] only: an order found pending after the handler ran was
    the same pending row before. *)
Theorem UpdateOrderStatus_applies_requested_status
    orderID st now w (unmarshal : string -> option PaymentConfirmation) msg :
  orders (db (snd (UpdateOrderStatus orderID (status_label st) now w)))
  = map (set_status orderID st) (orders (db w))
  /\ (forall o,
        In o (orders (db (snd (handlePaymentConfirmed unmarshal msg now w)))) ->
        orders_status o = pending ->
        In o (orders (db w))).
Proof.
  split; [apply UpdateOrderStatus_orders|].
  intros o.
  destruct (unmarshal msg) as [payment|] eqn:Hdec.
  - rewrite (handlePaymentConfirmed_world _ _ _ _ _ Hdec).
    rewrite (UpdateOrderStatus_orders _ paid), in_map_iff.
    intros (o0 & <- & Hin). unfold set_status.
    destruct (orders_id o0 =? _); cbn; [discriminate|auto].
  - unfold handlePaymentConfirmed. rewrite Hdec. cbn. auto.
Qed.

Lemma UpdateOrderStatus_applies_requested_status_witness :
  orders (db (snd (UpdateOrderStatus 1 "shipped" 102 one_order_world)))
  = [mkOrderRow 1 1 1 2 5998 shipped 100]
  /\ forall o,
       In o (orders (db (snd (handlePaymentConfirmed unmarshal_payment_example
                                (payment_payload "paid") 102
                                one_order_world)))) ->
       orders_status o = pending ->
       In o (orders (db one_order_world)).
Proof.
  exact (UpdateOrderStatus_applies_requested_status 1 shipped 102
           one_order_world unmarshal_payment_example (payment_payload "paid")).
Defined.

(** Every backward move of the chain is applied as well: from any status to
    any status of lower rank. *)
Example UpdateOrderStatus_backward_moves :
  forall from to, status_rank to < status_rank from ->
    orders (db (snd (UpdateOrderStatus 1 (status_label to) 102
                       (mkWorld
                          (mkDB [] [] [mkOrderRow 1 1 1 2 5998 from 100]
                                2 2 false) [] 0))))
    = [mkOrderRow 1 1 1 2 5998 to 100].
Proof. intros from to _. rewrite UpdateOrderStatus_orders. reflexivity. Qed.

(** ** Two orders for the last unit *)

(** A call that makes its two moves with nothing in between is
    CreateOrder. *)
Lemma call_step_twice userID req now w :
  let s1 := call_step (mkCall userID req now BeforeSelect) w in
  let s2 := call_step (fst s1) (snd s1) in
  Call_state (fst s2) = Returned (fst (CreateOrder userID req now w))
  /\ snd s2 = snd (CreateOrder userID req now w).
Proof.
  unfold call_step, CreateOrder, CreateOrder_tx, tx_bind, CreateOrder_select.
  cbn [Call_state Call_req Call_userID Call_now].
  destruct (select_product (db w) (OrderRequest_ProductID req)) as [p|];
    cbn; split; reflexivity.
Qed.

(** Run one after the other, the first order takes the unit and the second
    is refused. *)
Example two_orders_in_sequence :
  let r1 := CreateOrder 1 (mkOrderRequest 1 1) 100 last_unit_world in
  let r2 := CreateOrder 2 (mkOrderRequest 1 1) 101 (snd r1) in
  (exists resp, fst r1 = inr resp)
  /\ fst r2 = inl (ErrInsufficientStock 0)
  /\ option_map Product_StockQuantity (select_product (db (snd r2)) 1)
     = Some 0
  /\ List.length (orders (db (snd r2))) = 1%nat.
Proof. repeat split; try reflexivity. eexists. reflexivity. Qed.

Example two_calls_in_sequence :
  let '(c1, c2, w) :=
    run_schedule [First; First; Second; Second] two_calls_for_last_unit in
  succeeded c1 = true
  /\ refused_for_stock c2 = true
  /\ option_map Product_StockQuantity (select_product (db w) 1) = Some 0.
Proof. repeat split; reflexivity. Qed.

(** C2.  Both calls read the stock before either writes it: both find one
    unit, both pass the stock check, both insert their order and both set
    the stock to 0.  Two orders are accepted against one unit and neither
    call is refused. *)
Theorem concurrent_orders_for_last_unit_both_succeed :
  let '(c1, c2, w) :=
    run_schedule [First; Second; First; Second] two_calls_for_last_unit in
  succeeded c1 = true
  /\ succeeded c2 = true
  /\ refused_for_stock c1 = false
  /\ refused_for_stock c2 = false
  /\ option_map Product_StockQuantity (select_product (db w) 1) = Some 0
  /\ map (fun o => (orders_user_id o, orders_product_id o, orders_quantity o))
         (orders (db w))
     = [(1, 1, 1); (2, 1, 1)]
  /\ map topic (published w)
     = ["order/created"; "inventory/low_stock";
        "order/created"; "inventory/low_stock"].
Proof. repeat split; reflexivity. Qed.

(** * More of the code *)

(** ** The keys of the schema are kept *)

Lemma product_exists_ids d id :
  product_exists d id = existsb (fun i => i =? id) (map Product_ID (products d)).
Proof.
  unfold product_exists. induction (products d) as [|p ps IH]; cbn;
    [reflexivity|now rewrite IH].
Qed.

Lemma product_exists_same_ids d d' id :
  map Product_ID (products d') = map Product_ID (products d) ->
  product_exists d' id = product_exists d id.
Proof. intros H. now rewrite !product_exists_ids, H. Qed.

Lemma db_consistent_same_keys d d' :
  map Product_ID (products d') = map Product_ID (products d) ->
  map (fun o => (orders_id o, orders_product_id o)) (orders d')
  = map (fun o => (orders_id o, orders_product_id o)) (orders d) ->
  next_product_id d <= next_product_id d' ->
  next_order_id d <= next_order_id d' ->
  db_consistent d -> db_consistent d'.
Proof.
  intros Hp Ho Hnp Hno (H1 & H2 & H3 & H4 & H5).
  assert (Hoid : map orders_id (orders d') = map orders_id (orders d)).
  { rewrite <- (map_map (fun o => (orders_id o, orders_product_id o)) fst),
      Ho, map_map. reflexivity. }
  assert (Hopid : map orders_product_id (orders d')
                  = map orders_product_id (orders d)).
  { rewrite <- (map_map (fun o => (orders_id o, orders_product_id o)) snd),
      Ho, map_map. reflexivity. }
  unfold db_consistent. rewrite Hp, Hoid. repeat split; auto.
  - apply Forall_forall. intros p Hin.
    assert (Hin' : In (Product_ID p) (map Product_ID (products d)))
      by (rewrite <- Hp; now apply in_map).
    apply in_map_iff in Hin' as (q & Hq & Hinq).
    rewrite Forall_forall in H3. specialize (H3 q Hinq). lia.
  - apply Forall_forall. intros o Hin.
    assert (Hin' : In (orders_id o) (map orders_id (orders d)))
      by (rewrite <- Hoid; now apply in_map).
    apply in_map_iff in Hin' as (q & Hq & Hinq).
    rewrite Forall_forall in H4. specialize (H4 q Hinq). lia.
  - apply Forall_forall. intros o Hin.
    assert (Hin' : In (orders_product_id o)
                     (map orders_product_id (orders d)))
      by (rewrite <- Hopid; now apply in_map).
    apply in_map_iff in Hin' as (q & Hq & Hinq).
    rewrite Forall_forall in H5. specialize (H5 q Hinq).
    now rewrite (product_exists_same_ids _ _ _ Hp), <- Hq.
Qed.

Lemma rollback_consistent d d' :
  next_product_id d <= next_product_id d' ->
  next_order_id d <= next_order_id d' ->
  db_consistent d -> db_consistent (rollback d d').
Proof. intros Hp Ho. now apply db_consistent_same_keys. Qed.

Lemma update_stock_counters newStock id d n d' :
  update_stock newStock id d = inr (n, d') ->
  next_product_id d' = next_product_id d
  /\ next_order_id d' = next_order_id d
  /\ clientFoundRows d' = clientFoundRows d.
Proof.
  unfold update_stock. destruct (existsb _ _ && negb _); [discriminate|].
  intros [= _ <-]. cbn. auto.
Qed.

Lemma update_stock_consistent newStock id d n d' :
  update_stock newStock id d = inr (n, d') ->
  db_consistent d -> db_consistent d'.
Proof.
  intros H. pose proof (update_stock_counters _ _ _ _ _ H) as (Hnp & Hno & _).
  apply update_stock_inv in H as (_ & Ho & Hp & _).
  apply db_consistent_same_keys.
  - rewrite Hp, map_map. apply map_ext. intros p.
    now destruct (Product_ID p =? id).
  - now rewrite Ho.
  - lia.
  - lia.
Qed.

Lemma update_product_inv req id d n d' :
  update_product req id d = inr (n, d') ->
  users d' = users d
  /\ orders d' = orders d
  /\ products d' =
       map (fun p =>
              if Product_ID p =? id
              then mkProduct (Product_ID p) (ProductRequest_Name req)
                     (ProductRequest_Description req)
                     (ProductRequest_PriceCents req)
                     (ProductRequest_StockQuantity req) (Product_CreatedAt p)
              else p) (products d)
  /\ next_product_id d' = next_product_id d
  /\ next_order_id d' = next_order_id d
  /\ clientFoundRows d' = clientFoundRows d
  /\ (product_exists d id = true ->
      in_int32 (ProductRequest_PriceCents req) = true
      /\ in_int32 (ProductRequest_StockQuantity req) = true).
Proof.
  unfold update_product, product_exists.
  destruct (existsb _ _ && negb (in_varchar255 _ && _)); [discriminate|].
  destruct (existsb _ _ && negb _) eqn:Hc; [discriminate|].
  intros [= _ <-]. cbn. do 6 (split; [reflexivity|]).
  intros Hex. rewrite Hex in Hc. cbn in Hc.
  now apply negb_false_iff, andb_true_iff in Hc.
Qed.

Lemma update_product_consistent req id d n d' :
  update_product req id d = inr (n, d') ->
  db_consistent d -> db_consistent d'.
Proof.
  intros H. apply update_product_inv in H as (_ & Ho & Hp & Hnp & Hno & _).
  apply db_consistent_same_keys.
  - rewrite Hp, map_map. apply map_ext. intros p.
    now destruct (Product_ID p =? id).
  - now rewrite Ho.
  - lia.
  - lia.
Qed.

Lemma update_order_status_inv status id d n d' :
  update_order_status status id d = inr (n, d') ->
  users d' = users d
  /\ products d' = products d
  /\ next_product_id d' = next_product_id d
  /\ next_order_id d' = next_order_id d
  /\ clientFoundRows d' = clientFoundRows d
  /\ ((exists st, status_of_label status = Some st
                  /\ orders d' = map (set_status id st) (orders d))
      \/ (status_of_label status = None /\ order_present id d = false
          /\ d' = d /\ n = 0)).
Proof.
  unfold update_order_status, order_present.
  destruct (status_of_label status) as [st|].
  - intros [= _ <-]. cbn. repeat split. left. exists st. split; reflexivity.
  - destruct (existsb _ _) eqn:Hex; [discriminate|].
    intros [= <- <-]. repeat split. right. auto.
Qed.

Lemma map_set_status_keys id st (os : list OrderRow) :
  map (fun o => (orders_id o, orders_product_id o)) (map (set_status id st) os)
  = map (fun o => (orders_id o, orders_product_id o)) os.
Proof.
  rewrite map_map. apply map_ext. intros o. unfold set_status.
  now destruct (orders_id o =? id).
Qed.

Lemma update_order_status_consistent status id d n d' :
  update_order_status status id d = inr (n, d') ->
  db_consistent d -> db_consistent d'.
Proof.
  intros H.
  apply update_order_status_inv in H
    as (_ & Hp & Hnp & Hno & _ & [(st & _ & Ho)|(_ & _ & -> & _)]); [|auto].
  apply db_consistent_same_keys.
  - now rewrite Hp.
  - rewrite Ho. apply map_set_status_keys.
  - lia.
  - lia.
Qed.

Lemma insert_order_consistent userID productID quantity totalCents status now
    d id d' :
  insert_order userID productID quantity totalCents status now d
    = inr (id, d') ->
  db_consistent d -> db_consistent d'.
Proof.
  unfold insert_order.
  destruct (negb _); [discriminate|].
  destruct (status_of_label status) as [st|]; [|discriminate].
  destruct (negb (user_exists _ _ && _)) eqn:Hfk; [discriminate|].
  intros [= <- <-] (H1 & H2 & H3 & H4 & H5).
  apply negb_false_iff, andb_true_iff in Hfk as [_ Hpe].
  unfold db_consistent. cbn. repeat split; auto.
  - rewrite map_app. apply NoDup_app; auto.
    + cbn. constructor; [tauto|constructor].
    + intros a Hin [<-|[]]. apply in_map_iff in Hin as (o & Ho & Hin).
      rewrite Forall_forall in H4. specialize (H4 o Hin). cbn in Ho. lia.
  - apply Forall_app. split.
    + eapply Forall_impl; [|exact H4]. cbn. intros; lia.
    + constructor; [cbn; lia|constructor].
  - apply Forall_app. split; [exact H5|].
    constructor; [exact Hpe|constructor].
Qed.

Lemma insert_order_counters userID productID quantity totalCents status now
    d id d' :
  insert_order userID productID quantity totalCents status now d
    = inr (id, d') ->
  next_product_id d' = next_product_id d
  /\ next_order_id d' = next_order_id d + 1.
Proof.
  unfold insert_order.
  destruct (negb _); [discriminate|].
  destruct (status_of_label status) as [st|]; [|discriminate].
  destruct (negb (user_exists _ _ && _)); [discriminate|].
  intros [= <- <-]. cbn. auto.
Qed.

Lemma insert_product_inv name description priceCents stockQuantity now d id d' :
  insert_product name description priceCents stockQuantity now d
    = inr (id, d') ->
  id = next_product_id d
  /\ in_int32 priceCents = true /\ in_int32 stockQuantity = true
  /\ users d' = users d /\ orders d' = orders d
  /\ products d' =
       products d
       ++ [mkProduct id name description priceCents stockQuantity now]
  /\ next_product_id d' = id + 1
  /\ next_order_id d' = next_order_id d
  /\ clientFoundRows d' = clientFoundRows d.
Proof.
  unfold insert_product.
  destruct (negb (in_varchar255 _ && _)); [discriminate|].
  destruct (negb _) eqn:Hr; [discriminate|].
  intros [= <- <-]. cbn.
  apply negb_false_iff in Hr. rewrite !andb_true_iff in Hr.
  repeat split; tauto.
Qed.

Lemma insert_product_fitting name description price stock now d :
  in_varchar255 name = true -> in_text description = true ->
  in_int32 price = true -> in_int32 stock = true ->
  in_int32 (next_product_id d) = true ->
  insert_product name description price stock now d
  = inr (next_product_id d,
         mkDB (users d)
              (products d
               ++ [mkProduct (next_product_id d) name description price stock
                             now])
              (orders d) (next_product_id d + 1) (next_order_id d)
              (clientFoundRows d)).
Proof.
  intros Hn Hd Hp Hs Hid. unfold insert_product.
  now rewrite Hn, Hd, Hp, Hs, Hid.
Qed.

Lemma insert_product_consistent name description priceCents stockQuantity now
    d id d' :
  insert_product name description priceCents stockQuantity now d
    = inr (id, d') ->
  db_consistent d -> db_consistent d'.
Proof.
  intros H (H1 & H2 & H3 & H4 & H5).
  apply insert_product_inv in H
    as (-> & _ & _ & _ & Ho & Hp & Hnp & Hno & _).
  unfold db_consistent. rewrite Hp, Ho, Hnp, Hno. repeat split; auto.
  - rewrite map_app. apply NoDup_app; auto.
    + cbn. constructor; [tauto|constructor].
    + intros a Hin [<-|[]]. apply in_map_iff in Hin as (p & Hpid & Hin).
      rewrite Forall_forall in H3. specialize (H3 p Hin). cbn in Hpid. lia.
  - apply Forall_app. split.
    + eapply Forall_impl; [|exact H3]. cbn. intros; lia.
    + constructor; [cbn; lia|constructor].
  - eapply Forall_impl; [|exact H5]. cbn. intros o Ho'.
    rewrite product_exists_ids in *. rewrite Hp, map_app, existsb_app, Ho'.
    reflexivity.
Qed.

Lemma CreateOrder_consistent userID req now w :
  db_consistent (db w) ->
  db_consistent (db (snd (CreateOrder userID req now w))).
Proof.
  intros Hc. unfold_CreateOrder.
  destruct (select_product (db w) (OrderRequest_ProductID req)) as [p|];
    [|cbn; apply rollback_consistent; auto; lia].
  cbn [Product_StockQuantity Product_PriceCents Product_Name].
  destruct (Product_StockQuantity p <? OrderRequest_Quantity req);
    [cbn; apply rollback_consistent; auto; lia|].
  destruct (insert_order _ _ _ _ _ _ _) as [c|[orderID d1]] eqn:Hins;
    [cbn; apply rollback_consistent; auto; lia|].
  pose proof (insert_order_counters _ _ _ _ _ _ _ _ _ Hins) as [Hnp Hno].
  destruct (update_stock _ _ d1) as [c|[n d2]] eqn:Hupd.
  - cbn. apply rollback_consistent; auto; lia.
  - assert (Hd2 : db_consistent d2).
    { eapply update_stock_consistent; [exact Hupd|].
      eapply insert_order_consistent; [exact Hins|exact Hc]. }
    destruct (_ <? 10); exact Hd2.
Qed.

Lemma UpdateOrderStatus_consistent orderID status now w :
  db_consistent (db w) ->
  db_consistent (db (snd (UpdateOrderStatus orderID status now w))).
Proof.
  intros Hc. unfold UpdateOrderStatus.
  destruct (update_order_status status orderID (db w)) as [c|[n d']] eqn:H;
    [exact Hc|].
  apply update_order_status_consistent in H; [|exact Hc].
  destruct (n =? 0); exact H.
Qed.

Lemma UpdateProduct_consistent id req now w :
  db_consistent (db w) ->
  db_consistent (db (snd (UpdateProduct id req now w))).
Proof.
  intros Hc. unfold UpdateProduct.
  destruct (update_product req id (db w)) as [c|[n d']] eqn:H; [exact Hc|].
  apply update_product_consistent in H; [|exact Hc].
  destruct (GetProduct _ _); exact H.
Qed.

Lemma UpdateStock_consistent productID newStock now w :
  db_consistent (db w) ->
  db_consistent (db (snd (UpdateStock productID newStock now w))).
Proof.
  intros Hc. unfold UpdateStock.
  destruct (update_stock newStock productID (db w)) as [c|[n d']] eqn:H;
    [exact Hc|].
  apply update_stock_consistent in H; [|exact Hc].
  destruct (newStock <? 10); [|exact H].
  destruct (GetProduct _ _); exact H.
Qed.

Lemma CreateProduct_consistent req now w :
  db_consistent (db w) ->
  db_consistent (db (snd (CreateProduct req now w))).
Proof.
  intros Hc. unfold CreateProduct.
  destruct (insert_product _ _ _ _ _ _) as [c|[id d']] eqn:H; [exact Hc|].
  apply insert_product_consistent in H; [|exact Hc].
  destruct (GetProduct _ _); exact H.
Qed.

(** X1.  Whatever the services are asked to do, and whether the calls
    succeed or fail, product ids and order ids stay unique and below their
    counters and every order keeps referring to a product that exists. *)
Theorem services_keep_keys_consistent now ops w :
  db_consistent (db w) ->
  db_consistent (db (run_service_ops now ops w)).
Proof.
  unfold run_service_ops. revert w.
  induction ops as [|op ops IH]; intros w Hc; cbn; [exact Hc|].
  apply IH. destruct op; cbn.
  - now apply CreateOrder_consistent.
  - now apply UpdateOrderStatus_consistent.
  - now apply CreateProduct_consistent.
  - now apply UpdateProduct_consistent.
  - now apply UpdateStock_consistent.
Qed.

Lemma sample_db_consistent : db_consistent sample_db.
Proof.
  unfold db_consistent. cbn.
  repeat split; repeat constructor; cbn; intuition lia.
Qed.

Lemma services_keep_keys_consistent_witness :
  db_consistent
    (db (run_service_ops 100
           [DoCreateProduct (mkProductRequest "Raspberry Pi Kit" "" 7999 30);
            DoCreateOrder 1 (mkOrderRequest 5 2);
            DoUpdateStock 5 3;
            DoUpdateOrderStatus 1 "paid";
            DoCreateOrder 1 (mkOrderRequest 9 1)]
           sample_world)).
Proof.
  apply (services_keep_keys_consistent 100 _ sample_world).
  unfold db_consistent. cbn.
  repeat split; repeat constructor; cbn; intuition lia.
Defined.

(** ** Listings *)

Lemma insert_desc_perm {A : Type} (key : A -> Z) x (l : list A) :
  Permutation (insert_desc key x l) (x :: l).
Proof.
  induction l as [|y l IH]; cbn; [reflexivity|].
  destruct (key y <=? key x); [reflexivity|].
  rewrite IH. apply perm_swap.
Qed.

Lemma order_by_desc_perm {A : Type} (key : A -> Z) (l : list A) :
  Permutation (order_by_desc key l) l.
Proof.
  induction l as [|x l IH]; cbn; [reflexivity|].
  now rewrite insert_desc_perm, IH.
Qed.

Lemma insert_desc_sorted {A : Type} (key : A -> Z) x (l : list A) :
  StronglySorted (fun a b => key b <= key a) l ->
  StronglySorted (fun a b => key b <= key a) (insert_desc key x l).
Proof.
  induction 1 as [|y l Hs IH Hy]; cbn.
  - constructor; constructor.
  - destruct (key y <=? key x) eqn:Hle.
    + apply Z.leb_le in Hle. constructor.
      * now constructor.
      * constructor; [exact Hle|].
        eapply Forall_impl; [|exact Hy]. cbn. intros; lia.
    + apply Z.leb_gt in Hle. constructor; [exact IH|].
      eapply Permutation_Forall.
      * symmetry. apply insert_desc_perm.
      * constructor; [lia|exact Hy].
Qed.

Lemma order_by_desc_sorted {A : Type} (key : A -> Z) (l : list A) :
  StronglySorted (fun a b => key b <= key a) (order_by_desc key l).
Proof.
  induction l as [|x l IH]; cbn; [constructor|].
  now apply insert_desc_sorted.
Qed.

Lemma StronglySorted_map {A B : Type} (f : A -> B) (R : B -> B -> Prop)
    (l : list A) :
  StronglySorted (fun a b => R (f a) (f b)) l -> StronglySorted R (map f l).
Proof.
  induction 1 as [|x l Hs IH Hx]; cbn; constructor; [exact IH|].
  now apply Forall_map.
Qed.

(** X2.  GetProducts returns every row of the products table exactly once,
    the most recently created first. *)
Theorem GetProducts_lists_every_product_newest_first w :
  Permutation (GetProducts w) (products (db w))
  /\ StronglySorted
       (fun a b => Product_CreatedAt b <= Product_CreatedAt a)
       (GetProducts w).
Proof.
  split; [apply order_by_desc_perm|apply order_by_desc_sorted].
Qed.

(** Under the keys of the schema, each order is joined with exactly one
    product. *)
Lemma filter_unique_product (ps : list Product) id :
  NoDup (map Product_ID ps) ->
  existsb (fun p => Product_ID p =? id) ps = true ->
  exists p, filter (fun p => Product_ID p =? id) ps = [p].
Proof.
  induction ps as [|q ps IH]; cbn; [discriminate|].
  intros Hnd Hex. inversion Hnd as [|? ? Hnotin Hnd']; subst.
  destruct (Product_ID q =? id) eqn:Hq.
  - exists q. f_equal. apply Z.eqb_eq in Hq.
    destruct (filter _ ps) as [|r rs] eqn:Hf; [reflexivity|].
    exfalso. apply Hnotin.
    assert (Hin : In r (filter (fun p => Product_ID p =? id) ps))
      by (rewrite Hf; now left).
    apply filter_In in Hin as [Hin Hr]. apply Z.eqb_eq in Hr.
    rewrite Hq, <- Hr. now apply in_map.
  - cbn in Hex. now apply IH.
Qed.

Lemma orders_join_products_orders d :
  db_consistent d -> map fst (orders_join_products d) = orders d.
Proof.
  intros (Hnd & _ & _ & _ & Hfk). unfold orders_join_products.
  induction (orders d) as [|o os IH]; cbn; [reflexivity|].
  inversion Hfk as [|? ? Ho Hos]; subst.
  rewrite map_app, (IH Hos).
  destruct (filter_unique_product (products d) (orders_product_id o) Hnd Ho)
    as (p & ->).
  reflexivity.
Qed.

Lemma map_fst_filter {A B : Type} (f : A -> bool) (l : list (A * B)) :
  map fst (filter (fun x => f (fst x)) l) = filter f (map fst l).
Proof.
  induction l as [|x l IH]; cbn; [reflexivity|].
  destruct (f (fst x)); cbn; now rewrite IH.
Qed.

(** X3.  GetUserOrders lists each order of the user exactly once and no
    order of anybody else, the most recent first. *)
Theorem GetUserOrders_lists_the_users_orders_newest_first userID w :
  db_consistent (db w) ->
  Permutation (map OrderResponse_ID (GetUserOrders userID w))
    (map orders_id
       (filter (fun o => orders_user_id o =? userID) (orders (db w))))
  /\ StronglySorted
       (fun a b => OrderResponse_CreatedAt b <= OrderResponse_CreatedAt a)
       (GetUserOrders userID w).
Proof.
  intros Hc. unfold GetUserOrders. split.
  - rewrite map_map.
    change (fun x => OrderResponse_ID (scan_order x))
      with (fun x : OrderRow * Product => orders_id (fst x)).
    rewrite <- (map_map fst orders_id).
    apply Permutation_map.
    rewrite <- (orders_join_products_orders _ Hc), <- map_fst_filter.
    apply Permutation_map, order_by_desc_perm.
  - apply StronglySorted_map. cbn.
    apply (order_by_desc_sorted (fun op => orders_created_at (fst op))).
Qed.

Lemma GetUserOrders_lists_the_users_orders_newest_first_witness :
  Permutation
    (map OrderResponse_ID (GetUserOrders 1 one_order_world))
    (map orders_id
       (filter (fun o => orders_user_id o =? 1)
          (orders (db one_order_world))))
  /\ StronglySorted
       (fun a b => OrderResponse_CreatedAt b <= OrderResponse_CreatedAt a)
       (GetUserOrders 1 one_order_world).
Proof.
  apply (GetUserOrders_lists_the_users_orders_newest_first 1 one_order_world).
  unfold db_consistent. cbn.
  repeat split; repeat constructor; cbn; intuition lia.
Defined.

Lemma NoDup_map_inj {A B : Type} (f : A -> B) (l : list A) a b :
  NoDup (map f l) -> In a l -> In b l -> f a = f b -> a = b.
Proof.
  induction l as [|x l IH]; cbn; [tauto|].
  intros Hnd Ha Hb Hf. inversion Hnd as [|? ? Hnotin Hnd']; subst.
  destruct Ha as [->|Ha], Hb as [->|Hb]; auto.
  - exfalso. apply Hnotin. rewrite Hf. now apply in_map.
  - exfalso. apply Hnotin. rewrite <- Hf. now apply in_map.
Qed.

Lemma in_orders_join_products_iff d o p :
  In (o, p) (orders_join_products d)
  <-> In o (orders d) /\ In p (products d)
      /\ Product_ID p = orders_product_id o.
Proof.
  unfold orders_join_products. rewrite in_flat_map. split.
  - intros (o' & Hin & Hmap).
    apply in_map_iff in Hmap as (p' & [= <- <-] & Hf).
    apply filter_In in Hf as [Hp Hid]. apply Z.eqb_eq in Hid. auto.
  - intros (Ho & Hp & Hid). exists o. split; [exact Ho|].
    apply in_map, filter_In. split; [exact Hp|]. now apply Z.eqb_eq.
Qed.

(** Reading an order by its id and owner gives that row, joined with its
    product. *)
Lemma GetOrder_of_row w o p :
  db_consistent (db w) ->
  In o (orders (db w)) -> In p (products (db w)) ->
  Product_ID p = orders_product_id o ->
  GetOrder (orders_id o) (orders_user_id o) w = inr (scan_order (o, p)).
Proof.
  intros (Hndp & Hndo & _) Ho Hp Hid. unfold GetOrder.
  destruct (find _ _) as [[o' p']|] eqn:Hf.
  - apply find_some in Hf as [Hin Hm]. cbn [fst] in Hm.
    apply andb_true_iff in Hm as [Hm _]. apply Z.eqb_eq in Hm.
    apply in_orders_join_products_iff in Hin as (Ho' & Hp' & Hid').
    assert (o' = o) by (eapply NoDup_map_inj; eauto). subst o'.
    assert (p' = p) by (eapply NoDup_map_inj; eauto; congruence). subst p'.
    reflexivity.
  - exfalso. eapply find_none in Hf;
      [|apply in_orders_join_products_iff; eauto].
    cbn [fst] in Hf. now rewrite !Z.eqb_refl in Hf.
Qed.

Lemma GetOrder_in_GetUserOrders userID w r :
  GetOrder (OrderResponse_ID r) userID w = inr r ->
  In r (GetUserOrders userID w).
Proof.
  unfold GetOrder, GetUserOrders.
  destruct (find _ _) as [[o p]|] eqn:Hf; [|discriminate].
  intros [= <-]. apply find_some in Hf as [Hin Hm]. cbn [fst] in Hm.
  apply andb_true_iff in Hm as [_ Hu].
  apply in_map_iff. exists (o, p). split; [reflexivity|].
  apply (Permutation_in _ (Permutation_sym (order_by_desc_perm _ _))).
  apply filter_In. now split.
Qed.

(** X4.  GetOrder and GetUserOrders agree: an order response is in the
    listing of a user exactly when GetOrder returns it for its id and that
    user. *)
Theorem GetOrder_agrees_with_GetUserOrders userID w r :
  db_consistent (db w) ->
  In r (GetUserOrders userID w)
  <-> GetOrder (OrderResponse_ID r) userID w = inr r.
Proof.
  intros Hc. unfold GetUserOrders. split.
  - intros Hin. apply in_map_iff in Hin as ([o p] & <- & Hin).
    apply (Permutation_in _ (order_by_desc_perm _ _)) in Hin.
    apply filter_In in Hin as [Hin Hu]. cbn [fst] in Hu.
    apply Z.eqb_eq in Hu. subst userID.
    apply in_orders_join_products_iff in Hin as (Ho & Hp & Hid).
    now apply GetOrder_of_row.
  - apply GetOrder_in_GetUserOrders.
Qed.

Lemma one_order_world_consistent : db_consistent (db one_order_world).
Proof.
  unfold db_consistent. cbn.
  repeat split; repeat constructor; cbn; intuition lia.
Qed.

Lemma GetOrder_agrees_with_GetUserOrders_witness :
  In (mkOrderResponse 1 1 "Go Programming Book" 2 5998 "pending" 100)
     (GetUserOrders 1 one_order_world)
  <-> GetOrder 1 1 one_order_world
      = inr (mkOrderResponse 1 1 "Go Programming Book" 2 5998 "pending" 100).
Proof.
  apply (GetOrder_agrees_with_GetUserOrders 1 one_order_world
           (mkOrderResponse 1 1 "Go Programming Book" 2 5998 "pending" 100)).
  unfold db_consistent. cbn.
  repeat split; repeat constructor; cbn; intuition lia.
Defined.

(** X5.  An order that CreateOrder reports as created can be read back
    from the world the call leaves.  For its owner GetOrder returns a
    response with the id, product, product name, quantity, total and status
    of the one CreateOrder gave, and with the creation time stored in the
    row of the order; GetUserOrders lists that response.  For any other
    user the order is not found. *)
Theorem CreateOrder_then_GetOrder userID req now w resp w' :
  db_consistent (db w) ->
  CreateOrder userID req now w = (inr resp, w') ->
  (exists read o,
     GetOrder (OrderResponse_ID resp) userID w' = inr read
     /\ OrderResponse_ID read = OrderResponse_ID resp
     /\ OrderResponse_ProductID read = OrderResponse_ProductID resp
     /\ OrderResponse_ProductName read = OrderResponse_ProductName resp
     /\ OrderResponse_Quantity read = OrderResponse_Quantity resp
     /\ OrderResponse_TotalCents read = OrderResponse_TotalCents resp
     /\ OrderResponse_Status read = OrderResponse_Status resp
     /\ In o (orders (db w'))
     /\ orders_id o = OrderResponse_ID resp
     /\ OrderResponse_CreatedAt read = orders_created_at o
     /\ In read (GetUserOrders userID w'))
  /\ forall other, other <> userID ->
       GetOrder (OrderResponse_ID resp) other w' = inl ErrOrderNotFound.
Proof.
  intros Hc H.
  assert (Hc' : db_consistent (db w')).
  { pose proof (CreateOrder_consistent userID req now w Hc) as Hc'.
    now rewrite H in Hc'. }
  apply CreateOrder_success_inv in H
    as (p & orderID & d1 & n & d2 & Hsel & Hle & Hins & Hupd & Hresp & Hdb & _).
  cbn zeta in *.
  apply insert_order_inv in Hins
    as (st & Hst & _ & _ & Hid & _ & Hps & Hos & _).
  injection Hst as <-.
  apply update_stock_inv in Hupd as (_ & Hos2 & Hps2 & _).
  set (newStock := int_sub (Product_StockQuantity p)
                     (OrderRequest_Quantity req)) in *.
  set (total := int_mul (Product_PriceCents p) (OrderRequest_Quantity req))
    in *.
  set (o := mkOrderRow orderID userID (OrderRequest_ProductID req)
              (OrderRequest_Quantity req) total pending now) in *.
  set (p' := mkProduct (Product_ID p) (Product_Name p)
               (Product_Description p) (Product_PriceCents p) newStock
               (Product_CreatedAt p)).
  assert (Ho : In o (orders (db w'))).
  { rewrite Hdb, Hos2, Hos. apply in_or_app. right. now left. }
  assert (Hp' : In p' (products (db w'))).
  { assert (Hf : select_product (db w') (OrderRequest_ProductID req)
                 = Some p').
    { unfold select_product. rewrite Hdb, Hps2, Hps.
      now apply select_after_set_stock. }
    now apply find_some in Hf as [Hf _]. }
  apply select_product_exists in Hsel as (_ & Hpid & _).
  pose proof (GetOrder_of_row w' o p' Hc' Ho Hp' Hpid) as Hget.
  cbn [orders_id orders_user_id o] in Hget.
  split.
  - exists (scan_order (o, p')), o.
    rewrite Hresp. cbn [OrderResponse_ID OrderResponse_ProductID
      OrderResponse_ProductName OrderResponse_Quantity
      OrderResponse_TotalCents OrderResponse_Status].
    split; [exact Hget|].
    do 6 (split; [reflexivity|]).
    split; [exact Ho|]. do 2 (split; [reflexivity|]).
    apply GetOrder_in_GetUserOrders. exact Hget.
  - intros other Hother. apply GetOrder_not_of_user.
    unfold order_of_user. rewrite Hdb, Hos2, Hos, existsb_app.
    apply orb_false_iff. split.
    + apply not_true_iff_false. intros Hex.
      apply existsb_exists in Hex as (o0 & Hin & Hm).
      apply andb_true_iff in Hm as [Hm _]. apply Z.eqb_eq in Hm.
      destruct Hc as (_ & _ & _ & Hlt & _).
      rewrite Forall_forall in Hlt. specialize (Hlt o0 Hin).
      rewrite Hresp in Hm. cbn in Hm. lia.
    + cbn. rewrite orb_false_r. apply andb_false_iff. right.
      apply Z.eqb_neq. congruence.
Qed.

Lemma CreateOrder_then_GetOrder_witness :
  (exists read o,
     GetOrder 1 1 (snd (CreateOrder 1 (mkOrderRequest 1 2) 100 sample_world))
     = inr read
     /\ OrderResponse_ID read = 1
     /\ OrderResponse_ProductID read = 1
     /\ OrderResponse_ProductName read = "Go Programming Book"
     /\ OrderResponse_Quantity read = 2
     /\ OrderResponse_TotalCents read = 5998
     /\ OrderResponse_Status read = "pending"
     /\ In o (orders
                (db (snd (CreateOrder 1 (mkOrderRequest 1 2) 100
                            sample_world))))
     /\ orders_id o = 1
     /\ OrderResponse_CreatedAt read = orders_created_at o
     /\ In read
          (GetUserOrders 1
             (snd (CreateOrder 1 (mkOrderRequest 1 2) 100 sample_world))))
  /\ forall other, other <> 1 ->
       GetOrder 1 other
         (snd (CreateOrder 1 (mkOrderRequest 1 2) 100 sample_world))
       = inl ErrOrderNotFound.
Proof.
  apply (CreateOrder_then_GetOrder 1 (mkOrderRequest 1 2) 100 sample_world
           (mkOrderResponse 1 1 "Go Programming Book" 2 5998 "pending" 100)
           (snd (CreateOrder 1 (mkOrderRequest 1 2) 100 sample_world))).
  - unfold db_consistent. cbn.
    repeat split; repeat constructor; cbn; intuition lia.
  - reflexivity.
Defined.

(** ** The catalogue *)





(** A price beyond the INT range: the INSERT fails. *)
Example CreateProduct_price_out_of_range :
  exists cause,
    CreateProduct (mkProductRequest "Gold Bar" "" 2147483648 1) 100
      sample_world
    = (inl (ErrFailedToCreateProduct cause), sample_world).
Proof. eexists. reflexivity. Qed.

(** A name of 255 letters is stored, one of 256 letters fails the
    INSERT. *)
Example CreateProduct_name_at_the_limit :
  option_map Product_Name
    (match fst (CreateProduct (mkProductRequest (letters 255) "" 100 1) 100
                  sample_world) with
     | inr product => Some product
     | inl _ => None
     end) = Some (letters 255)
  /\ CreateProduct (mkProductRequest (letters 256) "" 100 1) 100 sample_world
     = (inl (ErrFailedToCreateProduct DataTooLong), sample_world).
Proof. split; vm_compute; reflexivity. Qed.

Lemma map_unmatched {A : Type} (matched : A -> bool) (g : A -> A)
    (l : list A) :
  existsb matched l = false ->
  map (fun x => if matched x then g x else x) l = l.
Proof.
  induction l as [|x l IH]; cbn; [reflexivity|].
  intros H. apply orb_false_iff in H as [Hx Hl].
  now rewrite Hx, (IH Hl).
Qed.

Lemma select_other_after_set (g : Product -> Product) (ps : list Product)
    id id' :
  (forall p, Product_ID (g p) = Product_ID p) ->
  id' <> id ->
  find (fun p => Product_ID p =? id')
    (map (fun p => if Product_ID p =? id then g p else p) ps)
  = find (fun p => Product_ID p =? id') ps.
Proof.
  intros Hg Hne. induction ps as [|p ps IH]; cbn; [reflexivity|].
  destruct (Product_ID p =? id) eqn:Hp.
  - rewrite Hg. apply Z.eqb_eq in Hp.
    assert (Hp' : (Product_ID p =? id') = false) by (apply Z.eqb_neq; lia).
    now rewrite Hp'.
  - destruct (Product_ID p =? id'); [reflexivity|exact IH].
Qed.

Lemma select_after_set (g : Product -> Product) (ps : list Product) id p :
  (forall p, Product_ID (g p) = Product_ID p) ->
  find (fun p => Product_ID p =? id) ps = Some p ->
  find (fun p => Product_ID p =? id)
    (map (fun p => if Product_ID p =? id then g p else p) ps)
  = Some (g p).
Proof.
  intros Hg. induction ps as [|q ps IH]; cbn; [discriminate|].
  destruct (Product_ID q =? id) eqn:Hq; cbn.
  - rewrite Hg, Hq. now intros [= ->].
  - rewrite Hq. exact IH.
Qed.

Lemma select_product_missing d id :
  product_exists d id = false <-> select_product d id = None.
Proof.
  unfold product_exists, select_product. split.
  - intros H. apply find_none_iff. intros p Hin.
    destruct (Product_ID p =? id) eqn:Hp; [|reflexivity].
    assert (existsb (fun p => Product_ID p =? id) (products d) = true)
      by (apply existsb_exists; eauto).
    congruence.
  - intros H. apply not_true_iff_false. intros Hex.
    apply existsb_exists in Hex as (p & Hin & Hp).
    now rewrite (find_none _ _ H p Hin) in Hp.
Qed.

(** X7.  UpdateProduct for an id no product has reports "product not
    found"; no row is changed and nothing is published. *)
Theorem UpdateProduct_of_missing_product id req now w :
  product_exists (db w) id = false ->
  UpdateProduct id req now w = (inl ErrProductNotFound, w).
Proof.
  intros Hno. unfold UpdateProduct, update_product.
  pose proof Hno as Hno'. unfold product_exists in Hno'. rewrite Hno'.
  cbn [andb]. unfold GetProduct. cbn [db].
  rewrite (map_unmatched _ _ _ Hno'), DB_eta, World_eta.
  apply select_product_missing in Hno. now rewrite Hno.
Qed.

Lemma UpdateProduct_of_missing_product_witness :
  UpdateProduct 9 (mkProductRequest "Ghost" "" 100 1) 100 sample_world
  = (inl ErrProductNotFound, sample_world).
Proof.
  apply (UpdateProduct_of_missing_product 9
           (mkProductRequest "Ghost" "" 100 1) 100 sample_world).
  reflexivity.
Defined.



(** A stock beyond the INT range: the UPDATE fails and the product is as it
    was. *)
Example UpdateProduct_stock_out_of_range :
  exists cause,
    UpdateProduct 1 (mkProductRequest "Go Programming Book" "" 2999 2147483648)
      200 sample_world
    = (inl (ErrFailedToUpdateProduct cause), sample_world).
Proof. eexists. reflexivity. Qed.

(** A name of 256 letters fails the UPDATE. *)
Example UpdateProduct_name_too_long :
  UpdateProduct 1 (mkProductRequest (letters 256) "" 2999 50) 200 sample_world
  = (inl (ErrFailedToUpdateProduct DataTooLong), sample_world).
Proof. vm_compute. reflexivity. Qed.

(** X9.  UpdateStock for an id no product has changes nothing.  It reports
    "product not found" when the new stock is below 10 and success when it
    is 10 or more, and the inventory/update handler logs accordingly: for a
    stock of 10 or more it logs the update of a product that does not
    exist. *)
Theorem UpdateStock_of_missing_product
    (unmarshal : string -> option InventoryUpdate) msg productID newStock
    now w :
  product_exists (db w) productID = false ->
  unmarshal msg = Some (mkInventoryUpdate productID newStock) ->
  UpdateStock productID newStock now w
  = (if newStock <? 10 then inl ErrProductNotFound else inr tt, w)
  /\ handleInventoryUpdate unmarshal msg now w
     = ([LogReceivedInventoryUpdate msg;
         if newStock <? 10
         then LogFailedToUpdateProductStock ErrProductNotFound
         else LogUpdatedStock productID newStock], w).
Proof.
  intros Hno Hdec.
  assert (H : UpdateStock productID newStock now w
              = (if newStock <? 10 then inl ErrProductNotFound else inr tt, w)).
  { unfold UpdateStock, update_stock.
    pose proof Hno as Hno'. unfold product_exists in Hno'. rewrite Hno'.
    cbn [andb]. unfold GetProduct. cbn [db].
    rewrite (map_unmatched _ _ _ Hno'), DB_eta, World_eta.
    apply select_product_missing in Hno. rewrite Hno.
    now destruct (newStock <? 10). }
  split; [exact H|].
  unfold handleInventoryUpdate. rewrite Hdec. cbn [InventoryUpdate_ProductID
    InventoryUpdate_NewStock]. rewrite H.
  now destruct (newStock <? 10).
Qed.

Lemma UpdateStock_of_missing_product_witness :
  UpdateStock 9 40 100 sample_world = (inr tt, sample_world)
  /\ handleInventoryUpdate
       (decode_only "product 9, new stock 40" (mkInventoryUpdate 9 40))
       "product 9, new stock 40" 100 sample_world
     = ([LogReceivedInventoryUpdate "product 9, new stock 40";
         LogUpdatedStock 9 40], sample_world).
Proof.
  exact (UpdateStock_of_missing_product
           (decode_only "product 9, new stock 40" (mkInventoryUpdate 9 40))
           "product 9, new stock 40" 9 40 100 sample_world
           eq_refl eq_refl).
Defined.

(** X10.  UpdateStock of an existing product, with a stock that fits the
    column, succeeds: the product has the new stock and is otherwise
    unchanged, the other products and the orders are untouched, and an
    inventory/low_stock message with the product's name and the new stock
    is published exactly when the new stock is below 10. *)
Theorem UpdateStock_sets_stock_and_alerts productID newStock now w p :
  select_product (db w) productID = Some p ->
  in_int32 newStock = true ->
  exists w',
    UpdateStock productID newStock now w = (inr tt, w')
    /\ select_product (db w') productID
       = Some (mkProduct (Product_ID p) (Product_Name p)
                 (Product_Description p) (Product_PriceCents p) newStock
                 (Product_CreatedAt p))
    /\ (forall id', id' <> productID ->
          select_product (db w') id' = select_product (db w) id')
    /\ orders (db w') = orders (db w)
    /\ published w' =
         published w
         ++ (if newStock <? 10
             then [low_stock_message productID (Product_Name p) newStock now]
             else []).
Proof.
  intros Hsel Hfit.
  unfold UpdateStock, update_stock. rewrite Hfit. cbn [negb].
  rewrite andb_false_r.
  set (g := fun q : Product =>
              mkProduct (Product_ID q) (Product_Name q)
                (Product_Description q) (Product_PriceCents q) newStock
                (Product_CreatedAt q)).
  assert (Hg : forall q, Product_ID (g q) = Product_ID q) by reflexivity.
  unfold GetProduct, select_product in *. cbn [db products].
  change (map _ (products (db w)))
    with (map (fun q => if Product_ID q =? productID then g q else q)
            (products (db w))).
  rewrite (select_after_set g _ _ _ Hg Hsel).
  destruct (newStock <? 10); eexists; (split; [reflexivity|]);
    cbn [db products orders published Publish];
    rewrite (select_after_set g _ _ _ Hg Hsel);
    (split; [reflexivity|]);
    (split; [intros id' Hne;
             now rewrite (select_other_after_set g _ _ _ Hg Hne)|]);
    split; try reflexivity.
  now rewrite app_nil_r.
Qed.

Lemma UpdateStock_sets_stock_and_alerts_witness :
  exists w',
    UpdateStock 1 5 100 sample_world = (inr tt, w')
    /\ select_product (db w') 1
       = Some (mkProduct 1 "Go Programming Book"
                 "Learn Go programming from scratch" 2999 5 0)
    /\ (forall id', id' <> 1 ->
          select_product (db w') id' = select_product (db sample_world) id')
    /\ orders (db w') = orders (db sample_world)
    /\ published w' =
         published sample_world
         ++ (if 5 <? 10
             then [low_stock_message 1 "Go Programming Book" 5 100]
             else []).
Proof.
  exact (UpdateStock_sets_stock_and_alerts 1 5 100 sample_world
           (mkProduct 1 "Go Programming Book"
              "Learn Go programming from scratch" 2999 50 0)
           eq_refl eq_refl).
Defined.

(** ** Orders *)

Lemma rows_affected_unmatched {A : Type} d (matched changed : A -> bool)
    (rows : list A) :
  existsb matched rows = false -> rows_affected d matched changed rows = 0.
Proof.
  unfold rows_affected. intros H.
  induction rows as [|r rows IH]; [reflexivity|].
  cbn in H. apply orb_false_iff in H as [Hr Hrows].
  cbn [filter]. rewrite Hr. cbn [andb]. now apply IH.
Qed.

Lemma rows_affected_changed {A : Type} d (matched changed : A -> bool)
    (rows : list A) :
  existsb (fun r => matched r && changed r) rows = true ->
  rows_affected d matched changed rows <> 0.
Proof.
  unfold rows_affected. intros H.
  induction rows as [|r rows IH]; [discriminate|].
  cbn in H. cbn [filter].
  destruct (matched r); cbn [andb] in *; [|now apply IH].
  destruct (changed r); cbn [orb] in *.
  - rewrite orb_true_r. cbn [List.length]. lia.
  - destruct (clientFoundRows d); cbn [orb List.length]; [lia|now apply IH].
Qed.

(** For an id no order has, UpdateOrderStatus reports "order not found"
    and changes nothing, whatever status it is given. *)
Lemma UpdateOrderStatus_of_missing_order orderID status now w :
  order_present orderID (db w) = false ->
  UpdateOrderStatus orderID status now w = (inl ErrOrderNotFound, w).
Proof.
  intros Hno. unfold UpdateOrderStatus, update_order_status.
  unfold order_present in Hno.
  destruct (status_of_label status) as [st|].
  - rewrite (rows_affected_unmatched _ _ _ _ Hno). cbn [Z.eqb].
    now rewrite (map_unmatched _ _ _ Hno), DB_eta, World_eta.
  - rewrite Hno. cbn [Z.eqb]. now rewrite World_eta.
Qed.

(** X11.  A payment/confirmed payload that does not decode, or that names
    an order that does not exist, leaves the world exactly as it was; the
    handler logs the failure and returns. *)
Theorem handlePaymentConfirmed_ignores_bad_payloads
    (unmarshal : string -> option PaymentConfirmation) msg now w :
  match unmarshal msg with
  | None => True
  | Some payment =>
    order_present (PaymentConfirmation_OrderID payment) (db w) = false
  end ->
  handlePaymentConfirmed unmarshal msg now w
  = ([LogReceivedPaymentConfirmation msg;
      match unmarshal msg with
      | None => LogFailedToParsePaymentConfirmation
      | Some _ => LogFailedToUpdateOrderStatus ErrOrderNotFound
      end], w).
Proof.
  unfold handlePaymentConfirmed.
  destruct (unmarshal msg) as [payment|]; [|reflexivity].
  intros Hno. now rewrite (UpdateOrderStatus_of_missing_order _ _ _ _ Hno).
Qed.

(** Scenario D: order 7 does not exist. *)
Lemma handlePaymentConfirmed_ignores_bad_payloads_witness :
  handlePaymentConfirmed
    (decode_only "order 7 paid" (mkPaymentConfirmation 7 "paid"))
    "order 7 paid" 100 one_order_world
  = ([LogReceivedPaymentConfirmation "order 7 paid";
      LogFailedToUpdateOrderStatus ErrOrderNotFound], one_order_world).
Proof.
  apply (handlePaymentConfirmed_ignores_bad_payloads
           (decode_only "order 7 paid" (mkPaymentConfirmation 7 "paid"))
           "order 7 paid" 100 one_order_world).
  reflexivity.
Defined.

Lemma forallb_negb_existsb {A : Type} (f : A -> bool) (l : list A) :
  forallb f l = negb (existsb (fun x => negb (f x)) l).
Proof.
  induction l as [|x l IH]; cbn; [reflexivity|].
  rewrite IH. now destruct (f x).
Qed.

Lemma existsb_pointwise {A : Type} (f g : A -> bool) (l : list A) :
  (forall x, f x = g x) -> existsb f l = existsb g l.
Proof.
  intros H. induction l as [|x l IH]; cbn; [reflexivity|].
  now rewrite H, IH.
Qed.

(** X12.  On a connection that reports changed rows, UpdateOrderStatus
    succeeds exactly when some order with the id has another status than
    the one asked for: it then writes the status to these orders and
    publishes one order/status_changed message.  Otherwise it returns
    "order not found" and the world is as it was. *)
Theorem UpdateOrderStatus_succeeds_iff_a_row_changes orderID st now w :
  clientFoundRows (db w) = false ->
  let changes :=
    existsb (fun o => (orders_id o =? orderID)
                      && negb (OrderStatus_eqb (orders_status o) st))
      (orders (db w)) in
  exists w',
    UpdateOrderStatus orderID (status_label st) now w
    = (if changes then inr tt else inl ErrOrderNotFound, w')
    /\ orders (db w') = map (set_status orderID st) (orders (db w))
    /\ products (db w') = products (db w)
    /\ (if changes
        then published w' =
               published w
               ++ [status_changed_message orderID (status_label st) now]
        else w' = w).
Proof.
  intros Hflag changes.
  destruct changes eqn:Hch; subst changes.
  - unfold UpdateOrderStatus, update_order_status.
    rewrite status_of_label_label.
    pose proof (rows_affected_changed (db w)
                  (fun o => orders_id o =? orderID)
                  (fun o => negb (OrderStatus_eqb (orders_status o) st))
                  (orders (db w)) Hch) as Hrows.
    apply Z.eqb_neq in Hrows. rewrite Hrows.
    eexists. split; [reflexivity|]. cbn. repeat split.
  - exists w.
    assert (Hsame : forallb
              (fun o => negb (orders_id o =? orderID)
                        || OrderStatus_eqb (orders_status o) st)
              (orders (db w)) = true).
    { rewrite forallb_negb_existsb. apply negb_true_iff.
      rewrite <- Hch. apply existsb_pointwise.
      intros o. now rewrite negb_orb, negb_involutive. }
    rewrite (UpdateOrderStatus_same_status_is_not_found _ _ _ _ Hflag Hsame).
    repeat split. now rewrite (set_status_same _ _ _ Hsame).
Qed.

Lemma UpdateOrderStatus_succeeds_iff_a_row_changes_witness :
  exists w',
    UpdateOrderStatus 1 "shipped" 100 one_order_world = (inr tt, w')
    /\ orders (db w') = [mkOrderRow 1 1 1 2 5998 shipped 100]
    /\ products (db w') = products (db one_order_world)
    /\ published w' = [status_changed_message 1 "shipped" 100].
Proof.
  exact (UpdateOrderStatus_succeeds_iff_a_row_changes 1 shipped 100
           one_order_world eq_refl).
Defined.

(** What the commit of a call went through, for the product it had read
    before. *)
Lemma CreateOrder_commit_inv userID req now product w resp w' :
  CreateOrder_end userID req now w
    (CreateOrder_reserve userID req now product (db w)) = (inr resp, w') ->
  exists orderID d1 n d2,
    OrderRequest_Quantity req <= Product_StockQuantity product
    /\ insert_order userID (OrderRequest_ProductID req)
         (OrderRequest_Quantity req)
         (int_mul (Product_PriceCents product) (OrderRequest_Quantity req))
         "pending" now (db w)
       = inr (orderID, d1)
    /\ update_stock
         (int_sub (Product_StockQuantity product) (OrderRequest_Quantity req))
         (OrderRequest_ProductID req) d1
       = inr (n, d2)
    /\ db w' = d2.
Proof.
  unfold CreateOrder_end, CreateOrder_reserve, tx_bind, tx_exec, tx_fail,
    tx_return, tx_ret.
  destruct (Product_StockQuantity product <? OrderRequest_Quantity req)
    eqn:Hlt; [discriminate|].
  destruct (insert_order _ _ _ _ _ _ _) as [c|[orderID d1]] eqn:Hins;
    [discriminate|].
  destruct (update_stock _ _ d1) as [c|[n d2]] eqn:Hupd; [discriminate|].
  intros H. injection H as _ Hw.
  exists orderID, d1, n, d2. apply Z.ltb_ge in Hlt.
  repeat split; auto.
  subst w'. destruct (_ <? 10); reflexivity.
Qed.

(** X13.  The commit of a successful CreateOrder call sets the stock of the
    ordered product to the stock the call had read minus the ordered
    quantity, whatever stock the table holds by then, and leaves every
    other product as it was; the quantity is at most the stock read.  So
    the call takes exactly the ordered quantity off the stock when, and
    only when, the table still holds the stock the call read, as it does
    when no write to that stock came between its SELECT and its commit.
    [product] is what the SELECT of the call scanned, [w] the world at its
    commit and [q] the row of the product there. *)
Theorem CreateOrder_commit_writes_read_stock
    userID req now product w c' w' resp q :
  in_int32 (Product_StockQuantity product) = true ->
  select_product (db w) (OrderRequest_ProductID req) = Some q ->
  call_step (mkCall userID req now (AfterSelect product)) w = (c', w') ->
  Call_state c' = Returned (inr resp) ->
  OrderRequest_Quantity req <= Product_StockQuantity product
  /\ select_product (db w') (OrderRequest_ProductID req)
     = Some (mkProduct (Product_ID q) (Product_Name q)
               (Product_Description q) (Product_PriceCents q)
               (Product_StockQuantity product - OrderRequest_Quantity req)
               (Product_CreatedAt q))
  /\ (forall id, id <> OrderRequest_ProductID req ->
        select_product (db w') id = select_product (db w) id)
  /\ (select_product (db w') (OrderRequest_ProductID req)
      = Some (mkProduct (Product_ID q) (Product_Name q)
                (Product_Description q) (Product_PriceCents q)
                (Product_StockQuantity q - OrderRequest_Quantity req)
                (Product_CreatedAt q))
      <-> Product_StockQuantity q = Product_StockQuantity product).
Proof.
  intros Hstock Hsel Hstep Hret.
  unfold call_step in Hstep.
  cbn [Call_state Call_userID Call_req Call_now] in Hstep.
  injection Hstep as Hc' Hw'. subst c'. cbn [Call_state] in Hret.
  injection Hret as Hfst.
  assert (H : CreateOrder_end userID req now w
                (CreateOrder_reserve userID req now product (db w))
              = (inr resp, w')).
  { rewrite <- Hfst, <- Hw'. now destruct (CreateOrder_end _ _ _ _ _). }
  apply CreateOrder_commit_inv in H
    as (orderID & d1 & n & d2 & Hle & Hins & Hupd & Hdb).
  apply insert_order_inv in Hins as (st & _ & Hq & _ & _ & _ & Hps & _ & _).
  apply update_stock_inv in Hupd as (_ & _ & Hps2 & _).
  rewrite (int_sub_exact _ _ Hstock Hq) in Hps2.
  assert (Hnew : select_product (db w') (OrderRequest_ProductID req)
                 = Some (mkProduct (Product_ID q) (Product_Name q)
                           (Product_Description q) (Product_PriceCents q)
                           (Product_StockQuantity product
                            - OrderRequest_Quantity req)
                           (Product_CreatedAt q))).
  { unfold select_product in *. rewrite Hdb, Hps2, Hps.
    now apply select_after_set_stock. }
  split; [exact Hle|]. split; [exact Hnew|]. split.
  - intros id Hne. unfold select_product. rewrite Hdb, Hps2, Hps.
    apply (select_other_after_set
             (fun r => mkProduct (Product_ID r) (Product_Name r)
                         (Product_Description r) (Product_PriceCents r)
                         (Product_StockQuantity product
                          - OrderRequest_Quantity req)
                         (Product_CreatedAt r))); auto.
  - rewrite Hnew. split.
    + intros [= E]. lia.
    + intros E. now rewrite E.
Qed.

(** The second of two calls for the last unit: it read the stock 1, commits
    after the first, and leaves the stock at 0, where it was. *)
Lemma CreateOrder_commit_writes_read_stock_witness :
  let w := snd (CreateOrder 1 (mkOrderRequest 1 1) 100 last_unit_world) in
  let s := call_step
             (mkCall 2 (mkOrderRequest 1 1) 101
                (AfterSelect (mkProduct 1 "Go Programming Book" "" 2999 1 0)))
             w in
  select_product (db w) 1
  = Some (mkProduct 1 "Go Programming Book"
            "Learn Go programming from scratch" 2999 0 0)
  /\ 1 <= 1
  /\ select_product (db (snd s)) 1
     = Some (mkProduct 1 "Go Programming Book"
               "Learn Go programming from scratch" 2999 0 0)
  /\ (forall id, id <> 1 ->
        select_product (db (snd s)) id = select_product (db w) id)
  /\ (select_product (db (snd s)) 1
      = Some (mkProduct 1 "Go Programming Book"
                "Learn Go programming from scratch" 2999 (0 - 1) 0)
      <-> 0 = 1).
Proof.
  split; [reflexivity|].
  exact (CreateOrder_commit_writes_read_stock 2 (mkOrderRequest 1 1) 101
           (mkProduct 1 "Go Programming Book" "" 2999 1 0)
           (snd (CreateOrder 1 (mkOrderRequest 1 1) 100 last_unit_world))
           _ _
           (mkOrderResponse 2 1 "Go Programming Book" 1 2999 "pending" 101)
           (mkProduct 1 "Go Programming Book"
              "Learn Go programming from scratch" 2999 0 0)
           eq_refl eq_refl eq_refl eq_refl).
Defined.

(** X14.  A CreateOrder that returns an error leaves no trace in the
    tables, even when the error comes after the order row was inserted: the
    users, the products and the orders are as before and nothing is
    published. *)
Theorem CreateOrder_error_changes_no_table userID req now w e w' :
  CreateOrder userID req now w = (inl e, w') ->
  users (db w') = users (db w)
  /\ products (db w') = products (db w)
  /\ orders (db w') = orders (db w)
  /\ published w' = published w.
Proof.
  unfold CreateOrder, CreateOrder_end.
  destruct (CreateOrder_tx userID req now (db w))
    as [[stop|[[[product totalCents] orderID] newStock]] d'].
  - intros [= _ <-]. cbn. auto.
  - cbn zeta. discriminate.
Qed.

(** The order for -2147483648 stickers at 1 cent is inserted, then the new
    stock does not fit its column and the insertion is undone. *)
Lemma CreateOrder_error_changes_no_table_witness :
  users (db (snd (CreateOrder 1 (mkOrderRequest 1 (-2147483648)) 100
                    penny_world)))
  = users (db penny_world)
  /\ products (db (snd (CreateOrder 1 (mkOrderRequest 1 (-2147483648)) 100
                          penny_world)))
     = products (db penny_world)
  /\ orders (db (snd (CreateOrder 1 (mkOrderRequest 1 (-2147483648)) 100
                        penny_world)))
     = orders (db penny_world)
  /\ published (snd (CreateOrder 1 (mkOrderRequest 1 (-2147483648)) 100
                       penny_world))
     = published penny_world.
Proof.
  exact (CreateOrder_error_changes_no_table 1
           (mkOrderRequest 1 (-2147483648)) 100 penny_world
           (ErrFailedToUpdateStock OutOfRange) _ eq_refl).
Defined.

(** ** What the services keep along a run *)

Lemma UpdateOrderStatus_keeps_products orderID status now w :
  products (db (snd (UpdateOrderStatus orderID status now w)))
  = products (db w).
Proof.
  unfold UpdateOrderStatus.
  destruct (update_order_status status orderID (db w)) as [c|[n d']] eqn:H;
    [reflexivity|].
  apply update_order_status_inv in H as (_ & Hp & _).
  destruct (n =? 0); exact Hp.
Qed.

Lemma CreateProduct_keeps_stock_nonneg req now w :
  0 <= ProductRequest_StockQuantity req ->
  stock_nonneg (db w) ->
  stock_nonneg (db (snd (CreateProduct req now w))).
Proof.
  intros Hreq Hok. unfold CreateProduct.
  destruct (insert_product _ _ _ _ _ _) as [c|[id d']] eqn:H; [exact Hok|].
  apply insert_product_inv in H as (_ & _ & Hfit & _ & _ & Hp & _).
  assert (Hd' : stock_nonneg d').
  { unfold stock_nonneg in *. rewrite Hp. apply Forall_app. split; [exact Hok|].
    constructor; [|constructor]. cbn. apply in_int32_bounds in Hfit. lia. }
  destruct (GetProduct _ _); exact Hd'.
Qed.

Lemma UpdateProduct_keeps_stock_nonneg id req now w :
  0 <= ProductRequest_StockQuantity req ->
  stock_nonneg (db w) ->
  stock_nonneg (db (snd (UpdateProduct id req now w))).
Proof.
  intros Hreq Hok. unfold UpdateProduct.
  destruct (update_product req id (db w)) as [c|[n d']] eqn:H; [exact Hok|].
  apply update_product_inv in H as (_ & _ & Hp & _ & _ & _ & Hfit).
  assert (Hd' : stock_nonneg d').
  { unfold stock_nonneg in *. rewrite Hp. apply Forall_map.
    apply Forall_forall. intros q Hin.
    pose proof (proj1 (Forall_forall _ _) Hok q Hin) as Hq. cbv beta in Hq.
    destruct (Product_ID q =? id) eqn:Hid; cbn [Product_StockQuantity];
      [|exact Hq].
    assert (Hex : product_exists (db w) id = true)
      by (apply existsb_exists; now exists q).
    apply Hfit in Hex as [_ Hs]. apply in_int32_bounds in Hs. lia. }
  destruct (GetProduct _ _); exact Hd'.
Qed.

(** X15.  Along any run of the services in which no operation is given a
    negative stock to write, every product keeps a stock between 0 and the
    largest INT: ordering never takes a stock below zero. *)
Theorem services_keep_stock_nonneg now ops w :
  Forall op_writes_nonneg_stock ops ->
  stock_nonneg (db w) ->
  stock_nonneg (db (run_service_ops now ops w)).
Proof.
  unfold run_service_ops. intros Hops. revert w.
  induction Hops as [|op ops Hop _ IH]; intros w Hok; cbn; [exact Hok|].
  apply IH. destruct op; cbn in *.
  - now apply CreateOrder_keeps_stock_nonneg.
  - unfold stock_nonneg. now rewrite UpdateOrderStatus_keeps_products.
  - now apply CreateProduct_keeps_stock_nonneg.
  - now apply UpdateProduct_keeps_stock_nonneg.
  - now apply UpdateStock_keeps_stock_nonneg.
Qed.

Lemma services_keep_stock_nonneg_witness :
  stock_nonneg
    (db (run_service_ops 100
           [DoCreateOrder 1 (mkOrderRequest 1 50);
            DoCreateOrder 1 (mkOrderRequest 1 1);
            DoUpdateStock 2 0;
            DoCreateOrder 1 (mkOrderRequest 2 (-3));
            DoUpdateProduct 3 (mkProductRequest "Docker T-Shirt" "" 1999 7)]
           sample_world)).
Proof.
  apply (services_keep_stock_nonneg 100 _ sample_world).
  - repeat constructor; cbn; lia.
  - unfold stock_nonneg. cbn. repeat constructor; cbn; lia.
Defined.

Lemma same_order_but_status_refl o : same_order_but_status o o.
Proof. unfold same_order_but_status. auto 7. Qed.

Lemma same_order_but_status_trans o1 o2 o3 :
  same_order_but_status o1 o2 -> same_order_but_status o2 o3 ->
  same_order_but_status o1 o3.
Proof.
  unfold same_order_but_status.
  intros (?&?&?&?&?&?) (?&?&?&?&?&?). repeat split; congruence.
Qed.

Lemma same_order_but_status_set id st o :
  same_order_but_status o (set_status id st o).
Proof.
  unfold set_status. destruct (orders_id o =? id);
    [unfold same_order_but_status; cbn; auto 7
    |apply same_order_but_status_refl].
Qed.

Lemma service_op_keeps_orders now op w o :
  In o (orders (db w)) ->
  exists o', In o' (orders (db (run_service_op now op w)))
             /\ same_order_but_status o o'.
Proof.
  intros Hin.
  assert (Hsame : forall w', orders (db w') = orders (db w) ->
            exists o', In o' (orders (db w')) /\ same_order_but_status o o').
  { intros w' ->. exists o. split; [exact Hin|].
    apply same_order_but_status_refl. }
  destruct op as [userID req|orderID status|req|id req|productID newStock];
    cbn [run_service_op].
  - destruct (CreateOrder userID req now w) as [[e|resp] w'] eqn:H;
      cbn [snd].
    + apply CreateOrder_failure_keeps_tables in H as (_ & Ho & _).
      now apply Hsame.
    + apply CreateOrder_success_inv in H
        as (p & orderID & d1 & n & d2 & _ & _ & Hins & Hupd & _ & Hdb & _).
      cbn zeta in *.
      apply insert_order_inv in Hins as (st & _ & _ & _ & _ & _ & _ & Ho & _).
      apply update_stock_inv in Hupd as (_ & Ho2 & _).
      exists o. split; [|apply same_order_but_status_refl].
      rewrite Hdb, Ho2, Ho. apply in_or_app. now left.
  - unfold UpdateOrderStatus.
    destruct (update_order_status status orderID (db w)) as [c|[n d']] eqn:H;
      [now apply Hsame|].
    apply update_order_status_inv in H
      as (_ & _ & _ & _ & _ & [(st & _ & Ho)|(_ & _ & -> & _)]).
    + exists (set_status orderID st o). split.
      * destruct (n =? 0); cbn; rewrite Ho; now apply in_map.
      * apply same_order_but_status_set.
    + apply Hsame. now destruct (n =? 0).
  - apply Hsame. unfold CreateProduct.
    destruct (insert_product _ _ _ _ _ _) as [c|[id d']] eqn:H;
      [reflexivity|].
    apply insert_product_inv in H as (_ & _ & _ & _ & Ho & _).
    destruct (GetProduct _ _); exact Ho.
  - apply Hsame. apply UpdateProduct_keeps_orders.
  - apply Hsame. unfold UpdateStock.
    destruct (update_stock newStock productID (db w)) as [c|[n d']] eqn:H;
      [reflexivity|].
    apply update_stock_inv in H as (_ & Ho & _).
    destruct (newStock <? 10); [|exact Ho].
    destruct (GetProduct _ _); exact Ho.
Qed.

(** X16.  No operation of the services deletes an order or changes its
    id, owner, product, quantity, total or creation time: whatever is run,
    every order of before is still there, the same but perhaps for its
    status. *)
Theorem services_never_rewrite_an_order now ops w o :
  In o (orders (db w)) ->
  exists o',
    In o' (orders (db (run_service_ops now ops w)))
    /\ same_order_but_status o o'.
Proof.
  unfold run_service_ops. revert w o.
  induction ops as [|op ops IH]; intros w o Hin; cbn.
  - exists o. split; [exact Hin|apply same_order_but_status_refl].
  - destruct (service_op_keeps_orders now op w o Hin) as (o1 & Hin1 & H1).
    destruct (IH _ _ Hin1) as (o2 & Hin2 & H2).
    exists o2. split; [exact Hin2|].
    eapply same_order_but_status_trans; eauto.
Qed.

Lemma services_never_rewrite_an_order_witness :
  exists o',
    In o' (orders (db (run_service_ops 200
                         [DoUpdateProduct 1
                            (mkProductRequest "Go Programming Book" "" 9999 48);
                          DoUpdateOrderStatus 1 "paid";
                          DoCreateOrder 2 (mkOrderRequest 1 1);
                          DoUpdateOrderStatus 1 "pending"]
                         one_order_world)))
    /\ same_order_but_status (mkOrderRow 1 1 1 2 5998 pending 100) o'.
Proof.
  apply (services_never_rewrite_an_order 200 _ one_order_world).
  cbn. now left.
Defined.

(** ** The data source name *)

Lemma string_length_append (a b : string) :
  String.length (a ++ b)%string = (String.length a + String.length b)%nat.
Proof. induction a as [|c a IH]; cbn; [reflexivity|now rewrite IH]. Qed.

Lemma string_append_nil_r (a : string) : (a ++ "")%string = a.
Proof. induction a as [|c a IH]; cbn; [reflexivity|now rewrite IH]. Qed.

Lemma string_append_assoc (a b c : string) :
  ((a ++ b) ++ c)%string = (a ++ b ++ c)%string.
Proof. induction a as [|x a IH]; cbn; [reflexivity|now rewrite IH]. Qed.

Lemma string_length_zero (a : string) : String.length a = 0%nat -> a = "".
Proof. destruct a; [reflexivity|discriminate]. Qed.

Lemma substring_prefix_of_append (sub suf : string) :
  substring 0 (String.length sub) (sub ++ suf) = sub.
Proof.
  induction sub as [|c sub IH]; cbn; [now destruct suf|now rewrite IH].
Qed.

Lemma substring_of_append (pre sub suf : string) :
  substring (String.length pre) (String.length sub) (pre ++ sub ++ suf) = sub.
Proof.
  induction pre as [|c pre IH]; cbn;
    [apply substring_prefix_of_append|exact IH].
Qed.

Lemma substring_zero_decomp (sub s : string) :
  substring 0 (String.length sub) s = sub ->
  exists suf, s = (sub ++ suf)%string.
Proof.
  revert s. induction sub as [|c sub IH]; intros s; cbn.
  - intros _. now exists s.
  - destruct s as [|c' s]; [discriminate|].
    intros [= -> H]. destruct (IH _ H) as (suf & ->). now exists suf.
Qed.

Lemma substring_decomp (i : nat) (sub s : string) :
  substring i (String.length sub) s = sub ->
  exists pre suf, s = (pre ++ sub ++ suf)%string.
Proof.
  revert s. induction i as [|i IH]; intros s H.
  - destruct (substring_zero_decomp _ _ H) as (suf & ->).
    now exists "", suf.
  - destruct s as [|c s]; cbn in H.
    + exists "", "". now rewrite <- H.
    + destruct (IH _ H) as (pre & suf & ->).
      now exists (String c pre), suf.
Qed.

Lemma containsAt_from_found (s sub : string) (i steps : nat) :
  containsAt_from s sub i steps = true
  <-> exists j, (i <= j < i + steps)%nat
                /\ substring j (String.length sub) s = sub.
Proof.
  revert i. induction steps as [|steps IH]; intros i; cbn.
  - split; [discriminate|]. intros (j & Hj & _). lia.
  - destruct (String.eqb_spec (substring i (String.length sub) s) sub)
      as [Heq|Hne].
    + split; [|reflexivity]. intros _. exists i. split; [lia|exact Heq].
    + rewrite IH. split.
      * intros (j & Hj & H). exists j. split; [lia|exact H].
      * intros (j & Hj & H). exists j. split; [|exact H].
        destruct (Nat.eq_dec j i) as [->|]; [contradiction|lia].
Qed.

Lemma contains_of_occurrence (pre substr suf : string) :
  contains (pre ++ substr ++ suf) substr = true.
Proof.
  unfold contains.
  assert (Hlen : String.length (pre ++ substr ++ suf)
                 = (String.length pre + String.length substr
                    + String.length suf)%nat)
    by (rewrite !string_length_append; lia).
  apply andb_true_iff. split; [apply Nat.leb_le; lia|].
  destruct (String.eqb_spec (pre ++ substr ++ suf) substr) as [|Hne];
    [reflexivity|].
  cbn [orb].
  assert (Hlt : (String.length substr
                 < String.length (pre ++ substr ++ suf))%nat).
  { destruct (Nat.eq_dec (String.length pre + String.length suf) 0)
      as [Hz|]; [|lia].
    exfalso. apply Hne.
    rewrite (string_length_zero pre), (string_length_zero suf) by lia.
    cbn. apply string_append_nil_r. }
  apply Nat.ltb_lt in Hlt as Hlt'. rewrite Hlt'. cbn [andb].
  apply orb_true_iff. right.
  unfold containsAt.
  assert (Hge : (String.length (pre ++ substr ++ suf)
                 <? String.length substr)%nat = false)
    by (apply Nat.ltb_ge; lia).
  rewrite Hge. apply containsAt_from_found.
  exists (String.length pre). split; [lia|].
  apply substring_of_append.
Qed.

(** X17.  contains is the substring test: it answers true exactly when the
    second string occurs somewhere in the first; in particular the empty
    string is contained in every string. *)
Theorem contains_is_substring (s substr : string) :
  (contains s substr = true
   <-> exists pre suf, s = (pre ++ substr ++ suf)%string)
  /\ contains s "" = true.
Proof.
  split; [|apply (contains_of_occurrence "" "" s)].
  split.
  - unfold contains.
    rewrite andb_true_iff, !orb_true_iff, andb_true_iff, !orb_true_iff.
    intros (_ & [H|(_ & [[H|H]|H])]).
    + apply String.eqb_eq in H. subst. exists "", "". cbn.
      now rewrite string_append_nil_r.
    + apply String.eqb_eq in H. eapply substring_decomp; eauto.
    + apply String.eqb_eq in H. eapply substring_decomp; eauto.
    + unfold containsAt in H.
      destruct (String.length s <? String.length substr)%nat;
        [discriminate|].
      apply containsAt_from_found in H as (j & _ & H).
      eapply substring_decomp; eauto.
  - intros (pre & suf & ->). apply contains_of_occurrence.
Qed.

Lemma contains_is_substring_witness :
  contains "storeuser:storepass@tcp(mariadb:3306)/onlinestore?parseTime=true"
    "?" = true.
Proof.
  apply (proj2 (proj1 (contains_is_substring
                  "storeuser:storepass@tcp(mariadb:3306)/onlinestore?parseTime=true"
                  "?"))).
  exists "storeuser:storepass@tcp(mariadb:3306)/onlinestore", "parseTime=true".
  reflexivity.
Defined.

Lemma contains_suffix (a b : string) : contains (a ++ b) b = true.
Proof.
  rewrite <- (string_append_nil_r b) at 1. apply contains_of_occurrence.
Qed.

(** X18.  The data source name Connect opens is the one it was given,
    followed by nothing, by "?parseTime=true" or by "&parseTime=true": it is
    left alone when it is empty or mentions parseTime=true already, and then
    the separator is "&" exactly when a "?" occurs in it.  A name that is
    not empty leaves Connect with parseTime=true in it, and fixing a fixed
    name changes nothing. *)
Theorem Connect_databaseURL_adds_parseTime_once (databaseURL : string) :
  (databaseURL <> "" ->
   contains (Connect_databaseURL databaseURL) "parseTime=true" = true)
  /\ Connect_databaseURL (Connect_databaseURL databaseURL)
     = Connect_databaseURL databaseURL
  /\ Connect_databaseURL databaseURL
     = (databaseURL
        ++ (if String.eqb databaseURL ""
               || contains databaseURL "parseTime=true"
            then ""
            else if contains databaseURL "?" then "&parseTime=true"
                 else "?parseTime=true"))%string.
Proof.
  assert (Hfixed : forall u,
            contains u "parseTime=true" = true -> Connect_databaseURL u = u).
  { intros u Hu. unfold Connect_databaseURL. rewrite Hu.
    now rewrite andb_false_r. }
  assert (Hadd : forall u sep,
            contains ((u ++ sep ++ "parseTime=true")%string)
              "parseTime=true" = true).
  { intros u sep. rewrite <- string_append_assoc. apply contains_suffix. }
  split; [|split].
  - intros Hne. unfold Connect_databaseURL.
    apply String.eqb_neq in Hne. rewrite Hne. cbn [negb andb].
    destruct (contains databaseURL "parseTime=true") eqn:Hc;
      [exact Hc|]. cbn [negb]. apply Hadd.
  - destruct (negb (String.eqb databaseURL "")
              && negb (contains databaseURL "parseTime=true")) eqn:Hcond.
    + assert (Hr : Connect_databaseURL databaseURL
                   = (databaseURL
                      ++ (if contains databaseURL "?" then "&" else "?")
                      ++ "parseTime=true")%string)
        by (unfold Connect_databaseURL; now rewrite Hcond).
      rewrite Hr. apply Hfixed, Hadd.
    + assert (Hr : Connect_databaseURL databaseURL = databaseURL)
        by (unfold Connect_databaseURL; now rewrite Hcond).
      now rewrite !Hr.
  - unfold Connect_databaseURL.
    destruct (String.eqb databaseURL ""); cbn [negb andb orb];
      [now rewrite string_append_nil_r|].
    destruct (contains databaseURL "parseTime=true"); cbn [negb];
      [now rewrite string_append_nil_r|].
    now destruct (contains databaseURL "?").
Qed.

Lemma Connect_databaseURL_adds_parseTime_once_witness :
  contains
    (Connect_databaseURL "storeuser:storepass@tcp(localhost:3306)/onlinestore")
    "parseTime=true" = true.
Proof.
  apply (proj1 (Connect_databaseURL_adds_parseTime_once
                  "storeuser:storepass@tcp(localhost:3306)/onlinestore")).
  discriminate.
Defined.

(** The default of the first config.Load gets the parameter appended; the
    one of docker-compose.yml is left as it is. *)
Example Connect_databaseURL_defaults :
  Connect_databaseURL "storeuser:storepass@tcp(localhost:3306)/onlinestore"
  = "storeuser:storepass@tcp(localhost:3306)/onlinestore?parseTime=true"
  /\ Connect_databaseURL
       "storeuser:storepass@tcp(mariadb:3306)/onlinestore?parseTime=true"
     = "storeuser:storepass@tcp(mariadb:3306)/onlinestore?parseTime=true".
Proof. split; reflexivity. Qed.

(** ** The sample data *)

Lemma insert_products_keeps rows now d :
  let r := insert_products rows now d in
  users (snd r) = users d /\ orders (snd r) = orders d
  /\ exists added, products (snd r) = products d ++ added.
Proof.
  revert d. induction rows as [|[[[name description] price] stock] rows IH];
    intros d; cbn.
  - repeat split. exists []. now rewrite app_nil_r.
  - destruct (insert_product name description price stock now d)
      as [c|[id d']] eqn:H; cbn.
    + repeat split. exists []. now rewrite app_nil_r.
    + apply insert_product_inv in H as (_ & _ & _ & Hu & Ho & Hp & _).
      destruct (IH d') as (Hu' & Ho' & added & Hp').
      rewrite Hu', Ho', Hp', Hp, <- app_assoc. repeat split; auto.
      eexists. reflexivity.
Qed.

Lemma insert_product_fails_whenever name description price stock now now' d c :
  insert_product name description price stock now d = inl c ->
  insert_product name description price stock now' d = inl c.
Proof.
  unfold insert_product.
  destruct (negb (in_varchar255 _ && _)); [auto|].
  destruct (negb _); [auto|discriminate].
Qed.

Lemma insert_products_again rows now now' d :
  products (snd (insert_products rows now d)) <> []
  \/ (snd (insert_products rows now d) = d
      /\ snd (insert_products rows now' d) = d).
Proof.
  destruct rows as [|[[[name description] price] stock] rows];
    [right; split; reflexivity|].
  cbn [insert_products].
  destruct (insert_product name description price stock now d)
    as [c|[id d1]] eqn:H1.
  - right. rewrite (insert_product_fails_whenever _ _ _ _ _ now' _ _ H1).
    split; reflexivity.
  - left.
    destruct (insert_products_keeps rows now d1) as (_ & _ & added & Hadd).
    cbn zeta in Hadd. rewrite Hadd.
    apply insert_product_inv in H1 as (_ & _ & _ & _ & _ & Hp1 & _).
    rewrite Hp1. now destruct (products d).
Qed.

(** X19.  On an empty products table whose next four ids fit the id
    column, insertSampleData inserts the four sample products, in their
    order, under the next four ids; a products table that holds a row is
    left as it is.  The users and the orders are never touched, and
    running it again changes nothing: the sample products are inserted
    once, however often the server starts. *)
Theorem insertSampleData_runs_once now now' d :
  (products d = [] ->
   in_int32 (next_product_id d) = true ->
   in_int32 (next_product_id d + 3) = true ->
   insertSampleData now d
   = (None,
      mkDB (users d) (sample_rows (next_product_id d) now) (orders d)
           (next_product_id d + 4) (next_order_id d) (clientFoundRows d)))
  /\ (products d <> [] -> insertSampleData now d = (None, d))
  /\ users (snd (insertSampleData now d)) = users d
  /\ orders (snd (insertSampleData now d)) = orders d
  /\ snd (insertSampleData now' (snd (insertSampleData now d)))
     = snd (insertSampleData now d).
Proof.
  assert (Hfull : forall t d0, products d0 <> [] ->
                    insertSampleData t d0 = (None, d0)).
  { intros t d0 Hne. unfold insertSampleData.
    destruct (products d0); [contradiction|reflexivity]. }
  split.
  { intros Hp Hlo Hhi. unfold insertSampleData. rewrite Hp.
    cbn [List.length Z.of_nat Z.gtb Z.compare].
    apply in_int32_bounds in Hlo, Hhi.
    assert (Hin : forall k, 0 <= k <= 3 ->
                    in_int32 (next_product_id d + k) = true).
    { intros k Hk. unfold in_int32. apply andb_true_iff.
      split; apply Z.leb_le; lia. }
    unfold sample_products, insert_products.
    rewrite insert_product_fitting;
      [|reflexivity|reflexivity|reflexivity|reflexivity
       |rewrite <- (Z.add_0_r (next_product_id d)); apply Hin; lia].
    rewrite insert_product_fitting;
      [|reflexivity|reflexivity|reflexivity|reflexivity
       |cbn [next_product_id]; apply Hin; lia].
    rewrite insert_product_fitting;
      [|reflexivity|reflexivity|reflexivity|reflexivity
       |cbn [next_product_id];
        replace (next_product_id d + 1 + 1) with (next_product_id d + 2)
          by lia; apply Hin; lia].
    rewrite insert_product_fitting;
      [|reflexivity|reflexivity|reflexivity|reflexivity
       |cbn [next_product_id];
        replace (next_product_id d + 1 + 1 + 1) with (next_product_id d + 3)
          by lia; apply Hin; lia].
    cbn [users products orders next_product_id next_order_id
         clientFoundRows].
    rewrite Hp. cbn [app]. unfold sample_rows.
    replace (next_product_id d + 1 + 1) with (next_product_id d + 2) by lia.
    replace (next_product_id d + 2 + 1) with (next_product_id d + 3) by lia.
    replace (next_product_id d + 3 + 1) with (next_product_id d + 4) by lia.
    reflexivity. }
  split; [apply Hfull|].
  destruct (products d) as [|p ps] eqn:Hp.
  - assert (Hr : forall t, insertSampleData t d
                           = insert_products sample_products t d)
      by (intros t; unfold insertSampleData; now rewrite Hp).
    rewrite !Hr.
    destruct (insert_products_keeps sample_products now d) as (Hu & Ho & _).
    split; [exact Hu|]. split; [exact Ho|].
    destruct (insert_products_again sample_products now now' d)
      as [Hne|[Hsame Hsame']].
    + now rewrite (Hfull _ _ Hne).
    + now rewrite Hsame, Hr, Hsame'.
  - assert (Hne : products d <> []) by (rewrite Hp; discriminate).
    rewrite (Hfull now d Hne). cbn [snd]. rewrite (Hfull now' d Hne).
    auto.
Qed.

Lemma insertSampleData_runs_once_witness :
  insertSampleData 0
    (mkDB [mkUserRow 1 "john@example.com" "$2a$10$hash" 0] [] [] 1 1 false)
  = (None, sample_db).
Proof.
  exact (proj1 (insertSampleData_runs_once 0 0
                  (mkDB [mkUserRow 1 "john@example.com" "$2a$10$hash" 0]
                        [] [] 1 1 false))
           eq_refl eq_refl eq_refl).
Defined.

(** On the empty catalogue the four products get the ids 1 to 4 and the
    list GetProducts returns has them all. *)
Example insertSampleData_on_empty_catalogue :
  let d0 := mkDB [mkUserRow 1 "john@example.com" "$2a$10$hash" 0] [] []
              1 1 false in
  insertSampleData 0 d0 = (None, sample_db)
  /\ map Product_ID (GetProducts (mkWorld (snd (insertSampleData 0 d0)) [] 0))
     = [1; 2; 3; 4].
Proof. split; reflexivity. Qed.

(** ** Answers of the HTTP handlers *)

(** X20.  OrderHandler.CreateOrder answers 201 with the order exactly when
    one order row, of the authenticated user, was added; every other answer
    is a 400 or a 401 with an error body, and then no table has changed and
    nothing was published.  The answer is 401 exactly when the context
    carries no user. *)
Theorem OrderHandler_CreateOrder_answers
    (decode : string -> option OrderRequest) user_id raw now w :
  let r := OrderHandler_CreateOrder decode user_id raw now w in
  ((exists order o,
      fst r = mkResponse 201 (OrderBody order)
      /\ orders (db (snd r)) = orders (db w) ++ [o]
      /\ orders_id o = OrderResponse_ID order
      /\ user_id = Some (orders_user_id o)
      /\ 1 <= orders_quantity o)
   \/ (exists e,
         (fst r = mkResponse 400 (ErrorBody e)
          \/ fst r = mkResponse 401 (ErrorBody e))
         /\ orders (db (snd r)) = orders (db w)
         /\ products (db (snd r)) = products (db w)
         /\ published (snd r) = published w))
  /\ (status_code (fst r) = 401 <-> user_id = None).
Proof.
  unfold OrderHandler_CreateOrder, ShouldBindJSON.
  destruct user_id as [userID|]; cbn zeta.
  2:{ split; [right; eexists; split; [right; reflexivity|auto]|].
      cbn. split; auto. }
  destruct (decode raw) as [req|].
  2:{ split; [right; eexists; split; [left; reflexivity|auto]|].
      cbn. split; [lia|discriminate]. }
  destruct (validate_OrderRequest req) eqn:Hv.
  2:{ split; [right; eexists; split; [left; reflexivity|auto]|].
      cbn. split; [lia|discriminate]. }
  apply validate_OrderRequest_quantity in Hv.
  destruct (CreateOrder userID req now w) as [[e|order] w'] eqn:H; cbn [fst snd].
  - apply CreateOrder_failure_keeps_tables in H as (Hp & Ho & Hpub).
    split; [right; eexists; split; [left; reflexivity|auto]|].
    cbn. split; [lia|discriminate].
  - apply CreateOrder_success_inv in H
      as (p & orderID & d1 & n & d2 & _ & _ & Hins & Hupd & Hresp & Hdb & _).
    cbn zeta in *.
    apply insert_order_inv in Hins as (st & _ & _ & _ & _ & _ & _ & Ho & _).
    apply update_stock_inv in Hupd as (_ & Ho2 & _).
    split; [left|cbn; split; [lia|discriminate]].
    eexists. eexists. split; [reflexivity|].
    rewrite Hdb, Ho2, Ho. split; [reflexivity|].
    rewrite Hresp. cbn. auto.
Qed.

(** X21.  The product handlers let no product through whose body has an
    empty name, a price below 1 or a stock below 1 (a stock of 0 included,
    which [required] refuses): CreateProduct and UpdateProduct answer 400
    with the binding error and the world is left as it was. *)
Theorem ProductHandlers_reject_invalid_bodies
    (decode : string -> option ProductRequest) (ParseInt : string -> option Z)
    idStr id raw now w req :
  decode raw = Some req ->
  ParseInt idStr = Some id ->
  ProductRequest_Name req = ""
  \/ ProductRequest_PriceCents req < 1
  \/ ProductRequest_StockQuantity req < 1 ->
  ProductHandler_CreateProduct decode raw now w
  = (mkProductResponse 400 (ProductErrorBody ProductBindingError), w)
  /\ ProductHandler_UpdateProduct decode ParseInt idStr raw now w
     = (mkProductResponse 400 (ProductErrorBody ProductBindingError), w).
Proof.
  intros Hdec Hid Hbad.
  assert (Hv : validate_ProductRequest req = false).
  { unfold validate_ProductRequest.
    destruct Hbad as [Hname|[Hprice|Hstock]].
    - now rewrite Hname.
    - assert (H : (1 <=? ProductRequest_PriceCents req) = false)
        by (apply Z.leb_gt; lia).
      rewrite H. now rewrite !andb_false_r.
    - destruct (Z.eq_dec (ProductRequest_StockQuantity req) 0) as [Hz|Hnz].
      + rewrite Hz. cbn. now rewrite andb_false_r.
      + assert (H : (0 <=? ProductRequest_StockQuantity req) = false)
          by (apply Z.leb_gt; lia).
        rewrite H. now rewrite !andb_false_r. }
  unfold ProductHandler_CreateProduct, ProductHandler_UpdateProduct,
    ShouldBindJSON_ProductRequest, getIDFromParam.
  now rewrite Hdec, Hid, Hv.
Qed.

Lemma ProductHandlers_reject_invalid_bodies_witness :
  ProductHandler_CreateProduct
    (decode_only "sold-out book" (mkProductRequest "Book" "" 2999 0))
    "sold-out book" 100 sample_world
  = (mkProductResponse 400 (ProductErrorBody ProductBindingError),
     sample_world)
  /\ ProductHandler_UpdateProduct
       (decode_only "sold-out book" (mkProductRequest "Book" "" 2999 0))
       (decode_only "1" 1) "1" "sold-out book" 100 sample_world
     = (mkProductResponse 400 (ProductErrorBody ProductBindingError),
        sample_world).
Proof.
  apply (ProductHandlers_reject_invalid_bodies
           (decode_only "sold-out book" (mkProductRequest "Book" "" 2999 0))
           (decode_only "1" 1) "1" 1 "sold-out book" 100 sample_world
           (mkProductRequest "Book" "" 2999 0)).
  - reflexivity.
  - reflexivity.
  - right. right. cbn. lia.
Defined.

(** X22.  Load takes each of its four settings from its own environment
    variable, as it is, when the variable holds a text, and the default
    when the variable is not set or set to the empty string.  So no setting
    of Load is ever empty, and the data source name main passes on leaves
    Connect with parseTime=true in it. *)
Theorem Load_settings_are_never_empty (environ : string -> string) :
  (environ "DATABASE_URL" = "" ->
   Config_DatabaseURL (Load environ)
   = "storeuser:storepass@tcp(localhost:3306)/onlinestore?parseTime=true")
  /\ (environ "DATABASE_URL" <> "" ->
      Config_DatabaseURL (Load environ) = environ "DATABASE_URL")
  /\ (environ "MQTT_BROKER" = "" ->
      Config_MQTTBroker (Load environ) = "tcp://localhost:1883")
  /\ (environ "MQTT_BROKER" <> "" ->
      Config_MQTTBroker (Load environ) = environ "MQTT_BROKER")
  /\ (environ "JWT_SECRET" = "" ->
      Config_JWTSecret (Load environ)
      = "your-super-secret-jwt-key-change-this-in-production")
  /\ (environ "JWT_SECRET" <> "" ->
      Config_JWTSecret (Load environ) = environ "JWT_SECRET")
  /\ (environ "PORT" = "" -> Config_Port (Load environ) = "8080")
  /\ (environ "PORT" <> "" -> Config_Port (Load environ) = environ "PORT")
  /\ Config_DatabaseURL (Load environ) <> ""
  /\ Config_MQTTBroker (Load environ) <> ""
  /\ Config_JWTSecret (Load environ) <> ""
  /\ Config_Port (Load environ) <> ""
  /\ contains (Connect_databaseURL (Config_DatabaseURL (Load environ)))
       "parseTime=true" = true.
Proof.
  assert (Hdef : forall key fallback,
            environ key = "" -> getEnv environ key fallback = fallback).
  { intros key fallback H. unfold getEnv. now rewrite H. }
  assert (Hset : forall key fallback,
            environ key <> "" -> getEnv environ key fallback = environ key).
  { intros key fallback H. unfold getEnv.
    apply String.eqb_neq in H. now rewrite H. }
  assert (Hne : forall key fallback,
            fallback <> "" -> getEnv environ key fallback <> "").
  { intros key fallback Hf. unfold getEnv.
    destruct (String.eqb_spec (environ key) ""); cbn; auto. }
  assert (Hdb : Config_DatabaseURL (Load environ) <> "")
    by (apply Hne; discriminate).
  do 4 (split; [apply Hdef|]; split; [apply Hset|]).
  split; [exact Hdb|].
  do 3 (split; [apply Hne; discriminate|]).
  unfold Connect_databaseURL.
  apply String.eqb_neq in Hdb. rewrite Hdb. cbn [negb andb].
  destruct (contains (Config_DatabaseURL (Load environ)) "parseTime=true")
    eqn:Hc; [exact Hc|]. cbn [negb].
  rewrite <- string_append_assoc. apply contains_suffix.
Qed.

Lemma Load_settings_are_never_empty_witness :
  Load compose_environment
  = mkConfig
      "storeuser:storepass@tcp(mariadb:3306)/onlinestore?parseTime=true"
      "tcp://mqtt:1883"
      "your-super-secret-jwt-key-change-this-in-production" "8080"
  /\ Load (fun _ => "")
     = mkConfig
         "storeuser:storepass@tcp(localhost:3306)/onlinestore?parseTime=true"
         "tcp://localhost:1883"
         "your-super-secret-jwt-key-change-this-in-production" "8080".
Proof.
  assert (Heta : forall c,
            c = mkConfig (Config_DatabaseURL c) (Config_MQTTBroker c)
                  (Config_JWTSecret c) (Config_Port c))
    by (intros []; reflexivity).
  split.
  - destruct (Load_settings_are_never_empty compose_environment)
      as (_ & Hdb & _ & Hmq & _ & Hjwt & _ & Hport & _).
    rewrite (Heta (Load compose_environment)).
    rewrite (Hdb ltac:(discriminate)), (Hmq ltac:(discriminate)),
      (Hjwt ltac:(discriminate)), (Hport ltac:(discriminate)).
    reflexivity.
  - destruct (Load_settings_are_never_empty (fun _ => ""))
      as (Hdb & _ & Hmq & _ & Hjwt & _ & Hport & _).
    rewrite (Heta (Load (fun _ => ""))).
    rewrite (Hdb eq_refl), (Hmq eq_refl), (Hjwt eq_refl), (Hport eq_refl).
    reflexivity.
Defined.

(** X23.  For an id no product has, the GET handler answers 404 and the
    PUT handler, given a valid body, answers 400, both with "product not
    found"; the PUT changes nothing and publishes nothing. *)
Theorem ProductHandlers_on_missing_product
    (decode : string -> option ProductRequest) (ParseInt : string -> option Z)
    idStr id raw now w req :
  ParseInt idStr = Some id ->
  decode raw = Some req ->
  validate_ProductRequest req = true ->
  product_exists (db w) id = false ->
  ProductHandler_GetProduct ParseInt idStr w
  = mkProductResponse 404
      (ProductErrorBody (ProductServiceError ErrProductNotFound))
  /\ ProductHandler_UpdateProduct decode ParseInt idStr raw now w
     = (mkProductResponse 400
          (ProductErrorBody (ProductServiceError ErrProductNotFound)), w).
Proof.
  intros Hid Hdec Hv Hno.
  unfold ProductHandler_GetProduct, ProductHandler_UpdateProduct,
    ShouldBindJSON_ProductRequest, getIDFromParam.
  rewrite Hid, Hdec, Hv. split.
  - unfold GetProduct. apply select_product_missing in Hno. now rewrite Hno.
  - unfold UpdateProduct, update_product.
    pose proof Hno as Hno'. unfold product_exists in Hno'. rewrite Hno'.
    cbn [andb]. unfold GetProduct. cbn [db].
    rewrite (map_unmatched _ _ _ Hno'), DB_eta, World_eta.
    apply select_product_missing in Hno. now rewrite Hno.
Qed.

Lemma ProductHandlers_on_missing_product_witness :
  ProductHandler_GetProduct (decode_only "9" 9) "9" sample_world
  = mkProductResponse 404
      (ProductErrorBody (ProductServiceError ErrProductNotFound))
  /\ ProductHandler_UpdateProduct
       (decode_only "a ghost" (mkProductRequest "Ghost" "" 100 1))
       (decode_only "9" 9) "9" "a ghost" 100 sample_world
     = (mkProductResponse 400
          (ProductErrorBody (ProductServiceError ErrProductNotFound)),
        sample_world).
Proof.
  exact (ProductHandlers_on_missing_product
           (decode_only "a ghost" (mkProductRequest "Ghost" "" 100 1))
           (decode_only "9" 9) "9" 9 "a ghost" 100 sample_world
           (mkProductRequest "Ghost" "" 100 1)
           eq_refl eq_refl eq_refl eq_refl).
Defined.

(** X24.  GetProducts and GetProduct agree: a product is in the listing
    exactly when GetProduct returns it for its id. *)
Theorem GetProduct_agrees_with_GetProducts w p :
  db_consistent (db w) ->
  In p (GetProducts w) <-> GetProduct (Product_ID p) w = inr p.
Proof.
  intros (Hnd & _). unfold GetProducts, GetProduct, select_product. split.
  - intros Hin. apply (Permutation_in _ (order_by_desc_perm _ _)) in Hin.
    destruct (find _ _) as [q|] eqn:Hf.
    + apply find_some in Hf as [Hq Hid]. apply Z.eqb_eq in Hid.
      now rewrite (NoDup_map_inj Product_ID _ q p Hnd Hq Hin Hid).
    + apply (find_none _ _ Hf) in Hin. now rewrite Z.eqb_refl in Hin.
  - destruct (find _ _) as [q|] eqn:Hf; [|discriminate].
    intros [= ->]. apply find_some in Hf as [Hq _].
    now apply (Permutation_in _ (Permutation_sym (order_by_desc_perm _ _))).
Qed.

Lemma GetProduct_agrees_with_GetProducts_witness :
  In (mkProduct 2 "MQTT Sensor Kit" "IoT sensor kit with MQTT support"
        4999 25 0) (GetProducts sample_world)
  <-> GetProduct 2 sample_world
      = inr (mkProduct 2 "MQTT Sensor Kit" "IoT sensor kit with MQTT support"
               4999 25 0).
Proof.
  apply (GetProduct_agrees_with_GetProducts sample_world
           (mkProduct 2 "MQTT Sensor Kit" "IoT sensor kit with MQTT support"
              4999 25 0)).
  unfold db_consistent. cbn.
  repeat split; repeat constructor; cbn; intuition lia.
Defined.

